(** * LiTest: the assertion engine, the run loop and the formatter protocol

    A shallow embedding of [src/litest.hpp] (namespace [litest]): the
    assertion functions [check], [equal], [throwsType], [throws] and
    [generateFailure], the helper [reportException], and the members of
    [TestSuite] that register and run tests.

    C++ exceptions are modelled by a state-and-exception monad; the
    formatter object behind [TestSuite::output] is modelled by the sequence
    of member-function calls it receives.  The member functions of the
    formatter, [operator==] and [operator<<] are taken to return normally.
    Test functions and the callables of assertions are code in the same
    monad, on the members of the suite that the assertion functions use;
    they do not register tests or start a run. *)

From stdpp Require Import base list strings pretty.
From Stdlib Require Import ZArith Lia.

Local Open Scope Z_scope.

(** ** Enumerations and exception classes *)

(** [enum class AssertionResult]. *)
Inductive AssertionResult : Set := Passed | Failed.

(** [enum class OnAssertionFailure]. *)
Module OnAssertionFailure.
Inductive t : Set := Continue | Abort.
End OnAssertionFailure.

(** [enum class TestSuite::Mode]. *)
Module Mode.
Inductive t : Set := Continue | Throw.
End Mode.

(** What a [throw] expression can raise.  The two exception classes of the
    header, any other class derived from [std::exception] (with its class
    name and [what()] text), and a thrown value whose type does not derive
    from [std::exception] ([throw 4], [throw "Bad code"]), with its type. *)
Inductive exn : Set :=
| AssertionFailureException (msg : string)
| TestAbortException (lineNumber : Z) (msg : string)
| StdException (cls : string) (msg : string)
| NonStdThrow (ty : string).

(** [e.what()] for the objects a [catch (std::exception &e)] clause accepts;
    [None] for the others, which only [catch (...)] accepts. *)
Definition what (e : exn) : option string :=
  match e with
  | AssertionFailureException msg => Some msg
  | TestAbortException _ msg => Some msg
  | StdException _ msg => Some msg
  | NonStdThrow _ => None
  end.

(** ** Data *)

(** [struct TestStats].  The [int] counters are unbounded integers here:
    signed overflow is undefined in C++, so there is no wrap-around to
    write out. *)
Record TestStats : Set := mkTestStats { passes : Z; fails : Z }.

(** [struct Test], over the type [F] of its [func] member.  [duration] is
    declared without an initializer: [None] until it is assigned.  The value
    assigned is the number of elapsed microseconds (the source divides it by
    [1e6] into a [double]). *)
Record Test_ (F : Type) : Type := mkTest {
  file : string;
  name : string;
  func : F;
  index : Z;
  aborted : bool;
  duration : option Z
}.
Arguments mkTest {F}.
Arguments file {F}.
Arguments name {F}.
Arguments func {F}.
Arguments index {F}.
Arguments aborted {F}.
Arguments duration {F}.

(** What a formatter can read of a [Test const&]: every member but the
    function object. *)
Definition TestView : Type := Test_ unit.

(** The virtual member functions of [TestResultFormatter], as calls with
    their arguments.  [formatTestSuiteStart] and [formatTestSuiteEnd] take
    the suite itself; the call records the suite's name and its total stats
    at the time of the call. *)
Inductive Event : Type :=
| formatTestHeader (test : TestView)
| formatTestFooter (test : TestView) (stats : TestStats)
| formatAbortedTest (line : Z) (reason : string)
| formatTestSuiteStart (suiteName : string) (total : TestStats)
| formatTestSuiteEnd (suiteName : string) (total : TestStats)
| formatPassedCheck (line : Z) (expr : string)
| formatPassedThrow (line : Z) (expr : string)
| formatPassedEquals (line : Z) (expr : string) (val : string)
| formatMessage (line : Z) (message : string)
| formatExpr (line : Z) (exprstr : string) (valstr : string)
| formatUnexpectedException (line : Z) (expr : string) (msg : string)
| formatFailedCheck (line : Z) (expr : string)
| formatFailedEquals (line : Z) (expr : string) (val : string) (res : string)
| formatFailedThrow (line : Z) (expr : string)
| formatManualFailure (line : Z) (reason : string).

(** The members of [TestSuite] that the assertion functions and the test
    functions work on: [output] (the calls received so far by the formatter
    it points to), [mode], and the private [counter], [stats_] and
    [totalStats_].  [clock] is the environment's time source: its n-th
    reading, in microseconds, and [clock_reads] the number of readings taken
    so far. *)
Record Ctx : Type := mkCtx {
  output : list Event;
  mode : Mode.t;
  counter : Z;
  stats_ : list TestStats;
  totalStats_ : TestStats;
  clock : nat -> Z;
  clock_reads : nat
}.

Definition set_output (o : list Event) (s : Ctx) : Ctx :=
  mkCtx o (mode s) (counter s) (stats_ s) (totalStats_ s) (clock s) (clock_reads s).
Definition set_mode (m : Mode.t) (s : Ctx) : Ctx :=
  mkCtx (output s) m (counter s) (stats_ s) (totalStats_ s) (clock s) (clock_reads s).
Definition set_counter (c : Z) (s : Ctx) : Ctx :=
  mkCtx (output s) (mode s) c (stats_ s) (totalStats_ s) (clock s) (clock_reads s).
Definition set_stats_ (l : list TestStats) (s : Ctx) : Ctx :=
  mkCtx (output s) (mode s) (counter s) l (totalStats_ s) (clock s) (clock_reads s).
Definition set_totalStats_ (t : TestStats) (s : Ctx) : Ctx :=
  mkCtx (output s) (mode s) (counter s) (stats_ s) t (clock s) (clock_reads s).
Definition set_clock_reads (n : nat) (s : Ctx) : Ctx :=
  mkCtx (output s) (mode s) (counter s) (stats_ s) (totalStats_ s) (clock s) n.

(** ** The monad of code that may throw *)

Inductive Outcome (A : Type) : Type :=
| Normal (a : A)
| Raised (e : exn).
Arguments Normal {A}.
Arguments Raised {A}.

Definition M (S A : Type) : Type := S -> Outcome A * S.

Definition ret {S A} (a : A) : M S A := fun s => (Normal a, s).

Definition bind {S A B} (m : M S A) (k : A -> M S B) : M S B :=
  fun s =>
    match m s with
    | (Normal a, s1) => k a s1
    | (Raised e, s1) => (Raised e, s1)
    end.

(** [throw e;] *)
Definition raise {S A} (e : exn) : M S A := fun s => (Raised e, s).

(** [try { body } catch ... ; rest]: [handlers e] is the code of the first
    [catch] clause that accepts [e], [None] when no clause does; [rest]
    is what follows the try block when [body] completes.  A handler's result
    is the result of the whole (in the source each handler either returns
    from the function or falls through to the same continuation). *)
Definition try_catch {S A B} (body : M S A) (handlers : exn -> option (M S B))
    (rest : A -> M S B) : M S B :=
  fun s =>
    match body s with
    | (Normal a, s1) => rest a s1
    | (Raised e, s1) =>
        match handlers e with
        | Some h => h s1
        | None => (Raised e, s1)
        end
    end.

Definition gets {S A} (f : S -> A) : M S A := fun s => (Normal (f s), s).
Definition modify {S} (f : S -> S) : M S unit := fun s => (Normal tt, f s).

Declare Scope monad_scope.
Delimit Scope monad_scope with monad.
Notation "x <- m ;; k" := (bind m (fun x => k))
  (at level 100, m at next level, right associativity) : monad_scope.
Notation "m ;; k" := (bind m (fun _ => k))
  (at level 100, right associativity) : monad_scope.
Local Open Scope monad_scope.

(** ** Vectors indexed by [int] *)

(** [v[i]] read.  Outside the vector the access is undefined in C++; the
    model has no element there. *)
Definition vec_at {A} (v : list A) (i : Z) : option A :=
  if 0 <=? i then v !! Z.to_nat i else None.

(** [v[i]] updated in place by [f]; outside the vector (undefined in C++)
    the model leaves the vector as it is. *)
Definition vec_alter {A} (f : A -> A) (i : Z) (v : list A) : list A :=
  if 0 <=? i then alter f (Z.to_nat i) v else v.

(** ** Members of TestSuite used during a test *)

Definition incr_passes (t : TestStats) : TestStats := mkTestStats (passes t + 1) (fails t).
Definition incr_fails (t : TestStats) : TestStats := mkTestStats (passes t) (fails t + 1).

(** [TestSuite::startTest]. *)
Definition startTest : M Ctx unit :=
  modify (fun s => set_counter (counter s + 1) s) ;;
  modify (fun s => set_stats_ (stats_ s ++ [mkTestStats 0 0]) s).

(** [TestSuite::passed]. *)
Definition passed : M Ctx AssertionResult :=
  modify (fun s => set_totalStats_ (incr_passes (totalStats_ s)) s) ;;
  modify (fun s => set_stats_ (vec_alter incr_passes (counter s) (stats_ s)) s) ;;
  ret Passed.

(** [TestSuite::failed]. *)
Definition failed : M Ctx AssertionResult :=
  modify (fun s => set_totalStats_ (incr_fails (totalStats_ s)) s) ;;
  modify (fun s => set_stats_ (vec_alter incr_fails (counter s) (stats_ s)) s) ;;
  ret Failed.

(** [TestSuite::currentTestStats]: [stats_[counter]]. *)
Definition currentTestStats (s : Ctx) : TestStats :=
  default (mkTestStats 0 0) (vec_at (stats_ s) (counter s)).

(** [TestSuite::totalTestStats]. *)
Definition totalTestStats (s : Ctx) : TestStats := totalStats_ s.

(** A call [suite.output->f(...)]. *)
Definition emit (ev : Event) : M Ctx unit :=
  modify (fun s => set_output (output s ++ [ev]) s).

(** A reading of [clock::now()]. *)
Definition now : M Ctx Z :=
  fun s => (Normal (clock s (clock_reads s)), set_clock_reads (S (clock_reads s)) s).

(** ** internal::descriptionIfAvailable *)

(** What the overloads of [descriptionIfAvailable] and [equal] ask of a
    value type [T]: [operator==]; [operator<<] into a stream, when the type
    has one; [begin]/[end], when the type has them, giving the elements as
    [operator<<] of the element type prints them. *)
Class ValueType (T : Type) : Type := {
  value_eq : T -> T -> bool;
  stream_out : option (T -> string);
  elements : option (T -> list string)
}.

(** The three overloads.  For a non-const lvalue the [T&] overload (stream
    output) is a better match than the [T const&] one (containers); the
    ellipsis overload is the last resort. *)
Definition descriptionIfAvailable {T} `{ValueType T} (val : T) : string :=
  match stream_out with
  | Some print => print val
  | None =>
      match elements with
      | Some elems =>
          "{ " +:+ foldr (fun e acc => e +:+ ", " +:+ acc) EmptyString (elems val) +:+ " }"
      | None => "N/A"
      end
  end.

(** [int], printed in decimal. *)
#[export] Instance int_ValueType : ValueType Z :=
  {| value_eq := Z.eqb; stream_out := Some pretty; elements := None |}.

(** [std::vector<int>]: no stream output, but [begin] and [end]. *)
#[export] Instance vector_int_ValueType : ValueType (list Z) :=
  {| value_eq := fun a b => bool_decide (a = b);
     stream_out := None;
     elements := Some (map pretty) |}.

(** A type with [operator==] only, like [NonPrintableType] of test/test.cpp. *)
Record NonPrintableType : Set := mkNonPrintable { np_value : Z }.
#[export] Instance NonPrintable_ValueType : ValueType NonPrintableType :=
  {| value_eq := fun a b => np_value a =? np_value b;
     stream_out := None;
     elements := None |}.

(** ** Free functions for testing *)

Section Assertions.

Import OnAssertionFailure.

(** [litest::reportException]; [onFail] has the default [Abort], and no
    caller in the header passes another value. *)
Definition reportException (line : Z) (exprstr msg : string)
    (onFail : OnAssertionFailure.t) : M Ctx AssertionResult :=
  failed ;;
  emit (formatUnexpectedException line exprstr msg) ;;
  m <- gets mode ;;
  match m with
  | Mode.Throw =>
      raise (AssertionFailureException ("Unexpected exception in: " +:+ exprstr))
  | Mode.Continue =>
      match onFail with
      | Abort => raise (TestAbortException line "Caught in assertion")
      | Continue => ret Failed
      end
  end.

(** The two clauses [catch (std::exception &e)] and [catch (...)] shared by
    [equal] and [check]. *)
Definition catch_all (line : Z) (exprstr : string) (e : exn)
    : option (M Ctx AssertionResult) :=
  match what e with
  | Some msg => Some (reportException line exprstr msg Abort)
  | None => Some (reportException line exprstr "N/A" Abort)
  end.

(** [litest::equal<T>].  The whole body, with its [throw] statements, is
    inside the try block. *)
Definition equal {T} `{ValueType T} (val : T) (func : M Ctx T)
    (onFail : OnAssertionFailure.t) (exprstr : string) (line : Z)
    : M Ctx AssertionResult :=
  try_catch
    (res <- func ;;
     if negb (value_eq res val) then
       failed ;;
       emit (formatFailedEquals line exprstr
               (descriptionIfAvailable val) (descriptionIfAvailable res)) ;;
       m <- gets mode ;;
       match m with
       | Mode.Throw =>
           raise (AssertionFailureException ("Unexpected value in: " +:+ exprstr))
       | Mode.Continue =>
           match onFail with
           | Abort => raise (TestAbortException line "Equal failed.")
           | Continue => ret Failed
           end
       end
     else
       passed ;;
       emit (formatPassedEquals line exprstr (descriptionIfAvailable val)) ;;
       ret Passed)
    (catch_all line exprstr)
    ret.

(** [litest::check].  Only [res = func()] is inside the try block. *)
Definition check (func : M Ctx bool) (onFail : OnAssertionFailure.t)
    (exprstr : string) (line : Z) : M Ctx AssertionResult :=
  try_catch func (catch_all line exprstr)
    (fun res =>
       if negb res then
         failed ;;
         emit (formatFailedCheck line exprstr) ;;
         m <- gets mode ;;
         match m with
         | Mode.Throw =>
             raise (AssertionFailureException ("Broken assertion in: " +:+ exprstr))
         | Mode.Continue =>
             match onFail with
             | Abort => raise (TestAbortException line "Check failed.")
             | Continue => ret Failed
             end
         end
       else
         passed ;;
         emit (formatPassedCheck line exprstr) ;;
         ret Passed).

(** [litest::throwsType<ThrownType>]; [ThrownType e] tells whether a
    clause [catch (ThrownType &)] accepts [e]. *)
Definition throwsType (ThrownType : exn -> bool) (func : M Ctx unit)
    (onFail : OnAssertionFailure.t) (exprstr : string) (line : Z)
    : M Ctx AssertionResult :=
  try_catch func
    (fun e =>
       if ThrownType e then
         Some (passed ;; emit (formatPassedThrow line exprstr) ;; ret Passed)
       else
         match what e with
         | Some msg => Some (reportException line exprstr msg Abort)
         | None =>
             Some (reportException line exprstr
                     "Uncaught exception in exception assertion" Abort)
         end)
    (fun _ =>
       failed ;;
       emit (formatFailedThrow line exprstr) ;;
       m <- gets mode ;;
       match m with
       | Mode.Throw =>
           raise (AssertionFailureException ("No exception in " +:+ exprstr))
       | Mode.Continue =>
           match onFail with
           | Abort => raise (TestAbortException line "No exception in throw assertion.")
           | Continue => ret Failed
           end
       end).

(** [litest::throws]. *)
Definition throws (func : M Ctx unit) (onFail : OnAssertionFailure.t)
    (exprstr : string) (line : Z) : M Ctx AssertionResult :=
  try_catch func
    (fun _ => Some (passed ;; emit (formatPassedThrow line exprstr) ;; ret Passed))
    (fun _ =>
       failed ;;
       emit (formatFailedThrow line exprstr) ;;
       m <- gets mode ;;
       match m with
       | Mode.Throw =>
           raise (AssertionFailureException ("No exception in: " +:+ exprstr))
       | Mode.Continue =>
           match onFail with
           | Abort => raise (TestAbortException line "No exception in throw assertion.")
           | Continue => ret Failed
           end
       end).

(** [litest::generateFailure]. *)
Definition generateFailure (reason : string) (onFail : OnAssertionFailure.t)
    (line : Z) : M Ctx AssertionResult :=
  failed ;;
  emit (formatManualFailure line reason) ;;
  m <- gets mode ;;
  match m with
  | Mode.Throw =>
      raise (AssertionFailureException ("Manual failure, reason: " +:+ reason))
  | Mode.Continue =>
      match onFail with
      | Abort => raise (TestAbortException line "Manual failure")
      | Continue => ret Failed
      end
  end.

End Assertions.

(** [LT_MESSAGE], and [LT_PRINT_EXPR] for an expression that is a
    non-const lvalue, like [vec] in test/test.cpp: the overloads of
    [descriptionIfAvailable] are then chosen as in [equal].  An expression
    that is not an lvalue cannot bind to the [T&] of the stream overload;
    [LT_PRINT_EXPR] of such an expression is not modelled. *)
Definition LT_MESSAGE (line : Z) (message : string) : M Ctx unit :=
  emit (formatMessage line message).
Definition LT_PRINT_EXPR {T} `{ValueType T} (line : Z) (exprstr : string) (v : T)
    : M Ctx unit :=
  emit (formatExpr line exprstr (descriptionIfAvailable v)).

(** ** TestSuite *)

(** [using TestFunc = std::function<void(TestSuite &)>]: code working on the
    suite it is given as context, through the members in [Ctx].  A test
    function that registers tests on the suite it is given, or starts a run
    of it, is outside the model: what is proved about [tests] and about the
    range check of [runSome] is proved for test functions that leave the
    list of tests alone. *)
Definition TestFunc : Type := M Ctx unit.
Definition Test : Type := Test_ TestFunc.

Definition view (t : Test) : TestView :=
  mkTest (file t) (name t) tt (index t) (aborted t) (duration t).

Definition set_aborted (b : bool) (t : Test) : Test :=
  mkTest (file t) (name t) (func t) (index t) b (duration t).
Definition set_duration (d : Z) (t : Test) : Test :=
  mkTest (file t) (name t) (func t) (index t) (aborted t) (Some d).

(** [class TestSuite]: its name, its tests, its two time members (unset
    until a run assigns them; [duration] is [suiteDuration] here), and in
    [ctx] the members a test function works on. *)
Record TestSuite : Type := mkTestSuite {
  suiteName : string;
  tests : list Test;
  endTime : option Z;
  suiteDuration : option Z;
  ctx : Ctx
}.

Definition set_tests (l : list Test) (su : TestSuite) : TestSuite :=
  mkTestSuite (suiteName su) l (endTime su) (suiteDuration su) (ctx su).
Definition set_endTime (t : Z) (su : TestSuite) : TestSuite :=
  mkTestSuite (suiteName su) (tests su) (Some t) (suiteDuration su) (ctx su).
Definition set_suiteDuration (d : Z) (su : TestSuite) : TestSuite :=
  mkTestSuite (suiteName su) (tests su) (endTime su) (Some d) (ctx su).
Definition set_ctx (c : Ctx) (su : TestSuite) : TestSuite :=
  mkTestSuite (suiteName su) (tests su) (endTime su) (suiteDuration su) c.

(** Code on the members in [ctx], run on the suite. *)
Definition on_ctx {A} (m : M Ctx A) : M TestSuite A :=
  fun su =>
    match m (ctx su) with
    | (r, c) => (r, set_ctx c su)
    end.

(** The constructor [TestSuite(name)], in an environment with time source
    [clk]: no test, [counter = -1], empty stats.  [mode] and [output] are
    assigned by [runSome] before they are read. *)
Definition newTestSuite (suite_name : string) (clk : nat -> Z) : TestSuite :=
  mkTestSuite suite_name [] None None
    (mkCtx [] Mode.Continue (-1) [] (mkTestStats 0 0) clk 0%nat).

(** [TestSuite::addTest]; [file] has the default ["N/A"]. *)
Definition addTest (test_name : string) (f : TestFunc) (test_file : string)
    (su : TestSuite) : TestSuite :=
  set_tests
    (tests su ++ [mkTest test_file test_name f (Z.of_nat (length (tests su)) + 1) false None])
    su.

(** The try block of [runSome] with its three catch clauses, run on the
    local copy [test]; the result is that copy as the code after the block
    finds it. *)
Definition run_try (test : Test) : M Ctx Test :=
  try_catch
    (testStartTime <- now ;;
     func test ;;
     endT <- now ;;
     ret (set_duration (endT - testStartTime) test))
    (fun e =>
       match e with
       | TestAbortException lineNumber msg =>
           let test1 := set_aborted true test in
           Some (emit (formatAbortedTest lineNumber msg) ;; ret test1)
       | _ =>
           match what e with
           | Some msg =>
               let test1 := set_aborted true test in
               Some (emit (formatAbortedTest 0 ("Uncaught exception: " +:+ msg)) ;;
                     ret test1)
           | None =>
               let test1 := set_aborted true test in
               Some (emit (formatAbortedTest 0 "Uncaught exception outside of assertion.") ;;
                     ret test1)
           end
       end)
    ret.

(** What one turn of the loop of [runSome] does with the copy [test]:
    everything after the range check and the copy. *)
Definition run_test (test : Test) : M Ctx unit :=
  startTest ;;
  emit (formatTestHeader (view test)) ;;
  test1 <- run_try test ;;
  st <- gets currentTestStats ;;
  emit (formatTestFooter (view test1) st).

(** One turn of the loop [for (int index : testIdx)] of [runSome].
    [auto test = this->tests[index]] copies the element: the turn works on
    the copy and never writes [tests]. *)
Definition run_index (i : Z) : M TestSuite unit :=
  fun su =>
    if negb ((0 <=? i) && (i <? Z.of_nat (length (tests su)))) then (Normal tt, su)
    else
      match vec_at (tests su) i with
      | Some test => on_ctx (run_test test) su
      | None => (Normal tt, su) (* no such case: [i] is in the range *)
      end.

Fixpoint for_each {S A} (l : list A) (body : A -> M S unit) : M S unit :=
  match l with
  | [] => ret tt
  | x :: l' => body x ;; for_each l' body
  end.

(** [TestSuite::runSome<TestResultFormatterType>]: [new] gives a formatter
    that has received no call yet; [delete output] ends it, and the calls it
    received stay in [output] to be read. *)
Definition runSome (testIdx : list Z) (m : Mode.t) : M TestSuite unit :=
  on_ctx (modify (set_mode m)) ;;
  on_ctx (modify (set_output [])) ;;
  on_ctx (modify (set_totalStats_ (mkTestStats 0 0))) ;;
  startTime <- on_ctx now ;;
  (fun su => on_ctx (emit (formatTestSuiteStart (suiteName su) (totalTestStats (ctx su)))) su) ;;
  for_each testIdx run_index ;;
  endT <- on_ctx now ;;
  modify (set_endTime endT) ;;
  modify (set_suiteDuration (endT - startTime)) ;;
  (fun su => on_ctx (emit (formatTestSuiteEnd (suiteName su) (totalTestStats (ctx su)))) su).

(** [TestSuite::run]: [std::iota] fills the vector with [0 .. size-1]. *)
Definition run (m : Mode.t) : M TestSuite unit :=
  fun su => runSome (map Z.of_nat (seq 0 (length (tests su)))) m su.

(** ** The example program of test/test.cpp

    Its first four tests, each callable with the outcome its expression
    has at that point of the program ([vec.empty()] is true, [1 > 2] is
    false, [vec.at(5)] throws [std::out_of_range], ...); expression texts
    that hold quotes are abridged. *)

Module Example.
Import OnAssertionFailure.

Definition is_out_of_range (e : exn) : bool :=
  match e with
  | StdException "std::out_of_range" _ => true
  | _ => false
  end.

Definition tests_that_pass : TestFunc :=
  check (ret true) Continue "vec.empty()" 118 ;;
  LT_MESSAGE 121 "Adding an element to the vector" ;;
  equal 2 (ret 2) Continue "vec.size()" 127 ;;
  throws (raise (NonStdThrow "const char*")) Continue "throw text" 130 ;;
  throwsType is_out_of_range (raise (StdException "std::out_of_range" "vector"))
    Continue "vec.at(5)" 133 ;;
  LT_PRINT_EXPR 136 "vec" [42; 56].

Definition tests_that_fail : TestFunc :=
  check (ret false) Continue "1 > 2" 142 ;;
  equal 3 (ret 2) Continue "1 + 1" 143 ;;
  throws (ret tt) Continue "1" 144 ;;
  throwsType is_out_of_range
    (raise (StdException "std::logic_error" "ERROR!")) Continue
    "throw std::logic_error(msg)" 145 ;;
  generateFailure "Some code went awry!" Continue 148 ;;
  ret tt.

Definition aborted_early : TestFunc :=
  LT_MESSAGE 155 "Test should be aborted on the next line" ;;
  check (ret false) Abort "42 > 1E100" 156 ;;
  check (ret true) Continue "true" 159 ;;
  ret tt.

Definition throw_outside : TestFunc :=
  check (ret true) Continue "INT_MAX > 5" 164 ;;
  raise (A := unit) (StdException "std::logic_error" "ERROR!") ;;
  raise (NonStdThrow "int").

Definition suite : TestSuite :=
  addTest "Test with throw outside of assertions" throw_outside "test.cpp"
    (addTest "Test that is aborted early" aborted_early "test.cpp"
       (addTest "Tests that fail" tests_that_fail "test.cpp"
          (addTest "Tests that pass" tests_that_pass "test.cpp"
             (newTestSuite "LiTest demonstration" (fun n => 10 * Z.of_nat n))))).
End Example.

(** ** Assertions inside the callable of an assertion

    The callable of an assertion is a function object that can reach the
    suite, so it can itself call an assertion function.  The first test
    calls the functions themselves, with the lines 10, 11 and 12:

    [litest::throws(suite, [&] { litest::check(suite, [] { return 1 > 2; },
       OnAssertionFailure::Abort, "1 > 2", 10); }, OnAssertionFailure::Continue,
       "inner()", 11);
     litest::check(suite, [] { return true; }, OnAssertionFailure::Continue, "true", 12);]

    The second uses the macros, whose lambdas capture the suite by
    reference, on the lines 20 and 21; the inner and the outer call of a
    line get the same [__LINE__]:

    [LT_THROWS(LT_EXCEPT(throw 4, std::out_of_range)); LT_CHECK(true);] *)

Module Nested.
Import OnAssertionFailure.

Definition abort_inside_throws : TestFunc :=
  throws (check (ret false) Abort "1 > 2" 10 ;; ret tt) Continue "inner()" 11 ;;
  check (ret true) Continue "true" 12 ;;
  ret tt.

Definition error_inside_throws : TestFunc :=
  throws (throwsType Example.is_out_of_range (raise (NonStdThrow "int")) Continue "throw 4" 20 ;;
          ret tt)
    Continue "LT_EXCEPT(throw 4, std::out_of_range)" 20 ;;
  check (ret true) Continue "true" 21 ;;
  ret tt.

Definition suite : TestSuite :=
  addTest "Unexpected exception inside a throw assertion" error_inside_throws "nested.cpp"
    (addTest "Abort inside a throw assertion" abort_inside_throws "nested.cpp"
       (newTestSuite "Nested assertions" (fun n => 10 * Z.of_nat n))).
End Nested.

(** ** Vocabulary of the properties *)

(** A call of one of the five assertion functions, with its arguments. *)
Inductive Assertion : Type :=
| Check (f : M Ctx bool) (onFail : OnAssertionFailure.t) (exprstr : string) (line : Z)
| Equal {T : Type} {V : ValueType T} (val : T) (f : M Ctx T)
    (onFail : OnAssertionFailure.t) (exprstr : string) (line : Z)
| ThrowsType (ThrownType : exn -> bool) (f : M Ctx unit)
    (onFail : OnAssertionFailure.t) (exprstr : string) (line : Z)
| Throws (f : M Ctx unit) (onFail : OnAssertionFailure.t) (exprstr : string) (line : Z)
| GenerateFailure (reason : string) (onFail : OnAssertionFailure.t) (line : Z).

Definition evaluate (a : Assertion) : M Ctx AssertionResult :=
  match a with
  | Check f onFail exprstr line => check f onFail exprstr line
  | Equal val f onFail exprstr line => equal val f onFail exprstr line
  | ThrowsType ThrownType f onFail exprstr line => throwsType ThrownType f onFail exprstr line
  | Throws f onFail exprstr line => throws f onFail exprstr line
  | GenerateFailure reason onFail line => generateFailure reason onFail line
  end.

Definition policy (a : Assertion) : OnAssertionFailure.t :=
  match a with
  | Check _ onFail _ _ | Equal _ _ onFail _ _ | ThrowsType _ _ onFail _ _
  | Throws _ onFail _ _ | GenerateFailure _ onFail _ => onFail
  end.

Definition line_of (a : Assertion) : Z :=
  match a with
  | Check _ _ _ line | Equal _ _ _ _ line | ThrowsType _ _ _ _ line
  | Throws _ _ _ line | GenerateFailure _ _ line => line
  end.

(** The text an assertion hands to the formatter: the expression, or the
    reason of a manual failure. *)
Definition text_of (a : Assertion) : string :=
  match a with
  | Check _ _ exprstr _ | Equal _ _ _ exprstr _ | ThrowsType _ _ _ exprstr _
  | Throws _ _ exprstr _ => exprstr
  | GenerateFailure reason _ _ => reason
  end.

(** The assertion fails: started in [s], its callable completes in [s1]
    with a disqualifying result ([false]; a value other than the expected
    one; no exception where one is expected).  A manual failure always
    fails. *)
Definition failing (a : Assertion) (s s1 : Ctx) : Prop :=
  match a with
  | Check f _ _ _ => f s = (Normal false, s1)
  | Equal val f _ _ _ => exists res, f s = (Normal res, s1) /\ value_eq res val = false
  | ThrowsType _ f _ _ _ => f s = (Normal tt, s1)
  | Throws f _ _ _ => f s = (Normal tt, s1)
  | GenerateFailure _ _ _ => s1 = s
  end.

(** The assertion errors: started in [s], its callable raises [e], leaving
    [s1], and [e] is not what the assertion is looking for. *)
Definition erroring (a : Assertion) (s : Ctx) (e : exn) (s1 : Ctx) : Prop :=
  match a with
  | Check f _ _ _ => f s = (Raised e, s1)
  | Equal _ f _ _ _ => f s = (Raised e, s1)
  | ThrowsType ThrownType f _ _ _ => f s = (Raised e, s1) /\ ThrownType e = false
  | Throws _ _ _ _ => False
  | GenerateFailure _ _ _ => False
  end.

(** The assertion passes: started in [s], its callable completes in [s1]
    with what the assertion is looking for. *)
Definition passing (a : Assertion) (s s1 : Ctx) : Prop :=
  match a with
  | Check f _ _ _ => f s = (Normal true, s1)
  | Equal val f _ _ _ => exists res, f s = (Normal res, s1) /\ value_eq res val = true
  | ThrowsType ThrownType f _ _ _ => exists e, f s = (Raised e, s1) /\ ThrownType e = true
  | Throws f _ _ _ => exists e, f s = (Raised e, s1)
  | GenerateFailure _ _ _ => False
  end.

(** [evaluated_in a body s s1]: the code [body], started in [s], comes to
    the assertion call [a] in the state [s1] as a statement of its own: the
    call is what the code consists of ([ev_here]), or it comes after
    statements that completed ([ev_later]), possibly in a block or in a
    function that the code calls ([ev_first]); it is neither inside a try
    block of the code nor inside the callable of another assertion. *)
Inductive evaluated_in (a : Assertion) : forall {A : Type}, M Ctx A -> Ctx -> Ctx -> Prop :=
| ev_here (s : Ctx) : evaluated_in a (evaluate a) s s
| ev_first {A B} (m : M Ctx A) (k : A -> M Ctx B) (s s1 : Ctx) :
    evaluated_in a m s s1 -> evaluated_in a (bind m k) s s1
| ev_later {A B} (m : M Ctx A) (k : A -> M Ctx B) (s : Ctx) (x : A) (s1 s2 : Ctx) :
    m s = (Normal x, s1) -> evaluated_in a (k x) s1 s2 -> evaluated_in a (bind m k) s s2.

(** How many times an assertion that fails calls [failed()], in mode [m]:
    once; twice for [equal] when the failure is resolved by a throw, which
    the catch clauses of [equal] take for an exception of the callable and
    hand to [reportException]. *)
Definition failures_counted (a : Assertion) (m : Mode.t) : Z :=
  match a with
  | Equal _ _ onFail _ _ =>
      match m, onFail with
      | Mode.Continue, OnAssertionFailure.Continue => 1
      | _, _ => 2
      end
  | _ => 1
  end.

(** The state in which a test function is entered by [run_test] started in
    [s]: a new stats slot, the header sent, the clock read once. *)
Definition entry (test : Test) (s : Ctx) : Ctx :=
  snd ((startTest ;; emit (formatTestHeader (view test)) ;; now) s).

(** [counter] designates an element of [stats_]: a test is running. *)
Definition in_test (s : Ctx) : Prop :=
  0 <= counter s < Z.of_nat (length (stats_ s)).

(** The state after [failed()] followed by a call [ev] on the formatter. *)
Definition failure_recorded (ev : Event) (s : Ctx) : Ctx :=
  snd ((failed ;; emit ev) s).

(** The state after [passed()] followed by a call [ev] on the formatter. *)
Definition pass_recorded (ev : Event) (s : Ctx) : Ctx :=
  snd ((passed ;; emit ev) s).

(** What a formatter reads of the copy of [test] that a loop turn has marked
    aborted: the members of [test], with [aborted] true. *)
Definition aborted_view (test : Test) : TestView :=
  mkTest (file test) (name test) tt (index test) true (duration test).

(** What the catch clauses of [runSome] report for [e]: line and reason. *)
Definition abort_report (e : exn) : Z * string :=
  match e with
  | TestAbortException lineNumber msg => (lineNumber, msg)
  | _ =>
      match what e with
      | Some msg => (0, "Uncaught exception: " +:+ msg)
      | None => (0, "Uncaught exception outside of assertion.")
      end
  end.

(** The suite as the loop of [runSome] finds it. *)
Definition run_started (m : Mode.t) (su : TestSuite) : TestSuite :=
  snd ((on_ctx (modify (set_mode m)) ;;
        on_ctx (modify (set_output [])) ;;
        on_ctx (modify (set_totalStats_ (mkTestStats 0 0))) ;;
        startTime <- on_ctx now ;;
        (fun su => on_ctx (emit (formatTestSuiteStart (suiteName su)
                                   (totalTestStats (ctx su)))) su)) su).

(** The suite as [runSome] leaves it, from the suite [su] as the loop left
    it, for a run started at [startTime]. *)
Definition run_ended (startTime : Z) (su : TestSuite) : TestSuite :=
  snd ((endT <- on_ctx now ;;
        modify (set_endTime endT) ;;
        modify (set_suiteDuration (endT - startTime)) ;;
        (fun su => on_ctx (emit (formatTestSuiteEnd (suiteName su)
                                   (totalTestStats (ctx su)))) su)) su).

(** ** Test code, counting and the suites of a program *)

(** The code a test function is made of: it returns, throws, sequences,
    catches, reads the suite, and reaches the counters and the formatter
    only through the public members [passed], [failed] and [output]. *)
Inductive TestCode : forall {A : Type}, M Ctx A -> Prop :=
| tc_ret {A} (a : A) : TestCode (ret a)
| tc_raise {A} (e : exn) : TestCode (raise (A := A) e)
| tc_bind {A B} (m : M Ctx A) (k : A -> M Ctx B) :
    TestCode m -> (forall a, TestCode (k a)) -> TestCode (bind m k)
| tc_try_catch {A B} (body : M Ctx A) (handlers : exn -> option (M Ctx B))
    (rest : A -> M Ctx B) :
    TestCode body ->
    (forall e h, handlers e = Some h -> TestCode h) ->
    (forall a, TestCode (rest a)) ->
    TestCode (try_catch body handlers rest)
| tc_passed : TestCode passed
| tc_failed : TestCode failed
| tc_emit (ev : Event) : TestCode (emit ev)
| tc_gets {A} (f : Ctx -> A) : TestCode (gets f).

Create HintDb testcode.
#[export] Hint Resolve tc_ret tc_raise tc_passed tc_failed tc_emit tc_gets : testcode.

(** Stats added to stats, member by member. *)
Definition add_stats (d t : TestStats) : TestStats :=
  mkTestStats (passes t + passes d) (fails t + fails d).

(** The sum of a sequence of stats. *)
Definition stats_sum (l : list TestStats) : TestStats :=
  foldr add_stats (mkTestStats 0 0) l.

(** [s1] is [s] with [d] counted, in the total and in the current test, and
    with calls added to the formatter; nothing else differs. *)
Definition counted (d : TestStats) (s s1 : Ctx) : Prop :=
  counter s1 = counter s /\
  mode s1 = mode s /\
  clock s1 = clock s /\
  clock_reads s1 = clock_reads s /\
  totalStats_ s1 = add_stats d (totalStats_ s) /\
  stats_ s1 = vec_alter (add_stats d) (counter s) (stats_ s) /\
  (exists evs, output s1 = output s ++ evs) /\
  0 <= passes d /\ 0 <= fails d.

(** The per-test stats produced since the start of a run that began with
    [counter = c0]: the elements of [stats_] after position [c0]. *)
Definition recorded_since (c0 : Z) (s : Ctx) : list TestStats :=
  drop (Z.to_nat (c0 + 1)) (stats_ s).

(** During a run that began with [counter = c0]: [counter] designates the
    last element of [stats_], and the total is the sum of the stats
    produced since the start of the run. *)
Definition run_inv (c0 : Z) (s : Ctx) : Prop :=
  -1 <= c0 <= counter s /\
  counter s + 1 = Z.of_nat (length (stats_ s)) /\
  totalStats_ s = stats_sum (recorded_since c0 s).

(** An assertion call whose callable is test code. *)
Definition callable_is_code (a : Assertion) : Prop :=
  match a with
  | Check f _ _ _ => TestCode f
  | Equal _ f _ _ _ => TestCode f
  | ThrowsType _ f _ _ _ => TestCode f
  | Throws f _ _ _ => TestCode f
  | GenerateFailure _ _ _ => True
  end.

(** The tests of a suite, all made of test code. *)
Definition tests_are_code (su : TestSuite) : Prop :=
  Forall (fun t : Test => TestCode (func t)) (tests su).

(** The suites a program gets by constructing a suite, adding tests made of
    test code, and running. *)
Inductive Reachable : TestSuite -> Prop :=
| reach_new (suite_name : string) (clk : nat -> Z) :
    Reachable (newTestSuite suite_name clk)
| reach_addTest (test_name : string) (f : TestFunc) (test_file : string) (su : TestSuite) :
    Reachable su -> TestCode f -> Reachable (addTest test_name f test_file su)
| reach_runSome (testIdx : list Z) (m : Mode.t) (su : TestSuite) :
    Reachable su -> Reachable (snd (runSome testIdx m su))
| reach_run (m : Mode.t) (su : TestSuite) :
    Reachable su -> Reachable (snd (run m su)).

(** The test at position [k] (from 0) has the index [k + 1]. *)
Definition indexed_from_one (su : TestSuite) : Prop :=
  forall (k : nat) (t : Test), tests su !! k = Some t -> index t = Z.of_nat k + 1.

(** The requested indices that [runSome] does not skip. *)
Definition in_range_of (su : TestSuite) (l : list Z) : list Z :=
  filter (fun i => 0 <= i < Z.of_nat (length (tests su))) l.

(** ** Formatters of the header

    What the stream of a formatter receives for each call, for
    [TestResultFormatterMarkdown<level>] and for the footer of
    [TestResultFormatterHTML]. *)

(** [std::endl] and the tabulator of the string literals. *)
Definition endl : string := String (Ascii.ascii_of_nat 10) EmptyString.
Definition tab : string := String (Ascii.ascii_of_nat 9) EmptyString.

(** [TestResultFormatter::lineNr]. *)
Definition lineNr (line : Z) : string :=
  if 0 <? line then pretty line else "???".

(** [enum class LogLevel : int], with the values of its enumerators. *)
Module LogLevel.
Inductive t : Set := Errors | Messages | Everything.
Definition value (level : t) : Z :=
  match level with
  | Errors => 1
  | Messages => 2
  | Everything => 3
  end.
End LogLevel.

(** [TestResultFormatterMarkdown<level>]: [call level ev] is what the
    member function called by [ev] writes.  [formatTestSuiteStart] is not
    overridden and writes nothing. *)
Module Markdown.
Definition logMesages (level : LogLevel.t) : bool :=
  LogLevel.value LogLevel.Messages <=? LogLevel.value level.
Definition logPasses (level : LogLevel.t) : bool :=
  LogLevel.value LogLevel.Everything <=? LogLevel.value level.
Definition lineNr (line : Z) : string := "Line " +:+ lineNr line.
Definition rule : string := "------------------------------------------------".
Definition call (level : LogLevel.t) (ev : Event) : string :=
  match ev with
  | formatTestHeader test =>
      endl +:+ " Test " +:+ pretty (index test) +:+ ": *" +:+ name test +:+ "* in file *"
        +:+ file test +:+ "*" +:+ endl +:+ rule +:+ endl
  | formatTestFooter test stats =>
      endl +:+ "**Total passed / failed assertions: " +:+ pretty (passes stats) +:+ " / "
        +:+ pretty (fails stats) +:+ "**" +:+ endl
  | formatTestSuiteEnd _ total =>
      endl +:+ " Summary" +:+ endl +:+ rule +:+ endl
        +:+ "**Total passed / failed assertions: " +:+ pretty (passes total) +:+ " / "
        +:+ pretty (fails total) +:+ "**" +:+ endl +:+ endl
  | formatTestSuiteStart _ _ => EmptyString
  | formatAbortedTest line reason =>
      "- " +:+ lineNr line +:+ ":" +:+ tab +:+ "**Test aborted: " +:+ reason +:+ "**" +:+ endl
  | formatPassedCheck line expr =>
      if logPasses level then
        "- " +:+ lineNr line +:+ ":" +:+ tab +:+ "Passed check: " +:+ " in `" +:+ expr
          +:+ "`" +:+ endl
      else EmptyString
  | formatPassedThrow line expr =>
      if logPasses level then
        "- " +:+ lineNr line +:+ ":" +:+ tab +:+ "Passed throw: " +:+ " in `" +:+ expr
          +:+ "`" +:+ endl
      else EmptyString
  | formatPassedEquals line expr val =>
      if logPasses level then
        "- " +:+ lineNr line +:+ ":" +:+ tab +:+ "Passed equals: `" +:+ expr +:+ "` == `"
          +:+ val +:+ "`" +:+ endl
      else EmptyString
  | formatMessage line message =>
      if logMesages level then
        "- " +:+ lineNr line +:+ ":" +:+ tab +:+ message +:+ "." +:+ endl
      else EmptyString
  | formatExpr line exprstr valstr =>
      if logMesages level then
        "- " +:+ lineNr line +:+ ":" +:+ tab +:+ "`" +:+ exprstr +:+ "` evaluates to `"
          +:+ valstr +:+ "`." +:+ endl
      else EmptyString
  | formatUnexpectedException line expr msg =>
      "- " +:+ lineNr line +:+ ":" +:+ tab +:+ "Exception was caught: " +:+ msg +:+ " in `"
        +:+ expr +:+ "`" +:+ endl
  | formatFailedCheck line expr =>
      "- " +:+ lineNr line +:+ ":" +:+ tab +:+ "Assertion failed: `" +:+ expr +:+ "`" +:+ endl
  | formatFailedThrow line expr =>
      "- " +:+ lineNr line +:+ ":" +:+ tab +:+ "Expected exception: `" +:+ expr +:+ "`" +:+ endl
  | formatFailedEquals line expr val res =>
      "- " +:+ lineNr line +:+ ":" +:+ tab +:+ "Equals failed: `" +:+ expr +:+ "` != `" +:+ val
        +:+ "` (got `" +:+ res +:+ "`)" +:+ endl
  | formatManualFailure line reason =>
      "- " +:+ lineNr line +:+ ":" +:+ tab +:+ "Manual failure, reason: '" +:+ reason +:+ "'"
        +:+ endl
  end.
End Markdown.

(** What a stream holds after the formatter [fmt] has received the calls
    [evs] in order. *)
Definition written (fmt : Event -> string) (evs : list Event) : string :=
  foldr (fun ev rest => fmt ev +:+ rest) EmptyString evs.

(** [TestResultFormatterHTML::formatTestFooter]: the class and the
    annotation it chooses, and what it writes. *)
Module HTML.
Definition badge (test : TestView) (stats : TestStats) : string * string :=
  if aborted test then ("aborted", "╳")
  else if fails stats =? 0 then ("passed", "✓")
  else ("failed", "×").
Definition formatTestFooter (test : TestView) (stats : TestStats) : string :=
  let '(clas, annotation) := badge test stats in
  "<script type='text/javascript'>document.getElementById('test-" +:+ pretty (index test)
    +:+ "-header').classList.add('" +:+ clas +:+ "');</script>"
    +:+ "</div><div class='result-badge'>" +:+ annotation +:+ "</div></div>".
End HTML.

(** ** Vocabulary of the further properties *)

(** The state in which the callable of an assertion leaves the suite: the
    state the assertion goes on from. *)
Definition after_callable (a : Assertion) (s : Ctx) : Ctx :=
  match a with
  | Check f _ _ _ => snd (f s)
  | Equal _ f _ _ _ => snd (f s)
  | ThrowsType _ f _ _ _ => snd (f s)
  | Throws f _ _ _ => snd (f s)
  | GenerateFailure _ _ _ => s
  end.

Definition is_Equal (a : Assertion) : bool :=
  match a with
  | Equal _ _ _ _ _ => true
  | _ => false
  end.

(** The number of outcomes in stats. *)
Definition outcomes (t : TestStats) : Z := passes t + fails t.

(** The calls that report a pass, a failure, and those an assertion or a
    message macro sends. *)
Definition is_pass_event (ev : Event) : bool :=
  match ev with
  | formatPassedCheck _ _ | formatPassedThrow _ _ | formatPassedEquals _ _ _ => true
  | _ => false
  end.

Definition is_fail_event (ev : Event) : bool :=
  match ev with
  | formatFailedCheck _ _ | formatFailedEquals _ _ _ _ | formatFailedThrow _ _
  | formatManualFailure _ _ | formatUnexpectedException _ _ _ => true
  | _ => false
  end.

Definition is_test_event (ev : Event) : bool :=
  match ev with
  | formatTestHeader _ | formatTestFooter _ _ | formatAbortedTest _ _
  | formatTestSuiteStart _ _ | formatTestSuiteEnd _ _ => false
  | _ => true
  end.

Definition count_events (p : Event -> bool) (evs : list Event) : Z :=
  Z.of_nat (length (List.filter p evs)).

(** The stats of the footers among calls, and the tests of the headers. *)
Definition footer_stats (evs : list Event) : list TestStats :=
  omap (fun ev => match ev with formatTestFooter _ st => Some st | _ => None end) evs.

Definition header_tests (evs : list Event) : list TestView :=
  omap (fun ev => match ev with formatTestHeader test => Some test | _ => None end) evs.

(** Test code written with the assertion functions and the message macros
    only: it does not call [passed], [failed] or the formatter itself. *)
Inductive MacroCode : forall {A : Type}, M Ctx A -> Prop :=
| mc_ret {A} (a : A) : MacroCode (ret a)
| mc_raise {A} (e : exn) : MacroCode (raise (A := A) e)
| mc_gets {A} (f : Ctx -> A) : MacroCode (gets f)
| mc_bind {A B} (m : M Ctx A) (k : A -> M Ctx B) :
    MacroCode m -> (forall a, MacroCode (k a)) -> MacroCode (bind m k)
| mc_try_catch {A B} (body : M Ctx A) (handlers : exn -> option (M Ctx B))
    (rest : A -> M Ctx B) :
    MacroCode body ->
    (forall e h, handlers e = Some h -> MacroCode h) ->
    (forall a, MacroCode (rest a)) ->
    MacroCode (try_catch body handlers rest)
| mc_check (f : M Ctx bool) onFail exprstr line :
    MacroCode f -> MacroCode (check f onFail exprstr line)
| mc_equal {T} {V : ValueType T} (val : T) (f : M Ctx T) onFail exprstr line :
    MacroCode f -> MacroCode (equal val f onFail exprstr line)
| mc_throwsType (ThrownType : exn -> bool) (f : M Ctx unit) onFail exprstr line :
    MacroCode f -> MacroCode (throwsType ThrownType f onFail exprstr line)
| mc_throws (f : M Ctx unit) onFail exprstr line :
    MacroCode f -> MacroCode (throws f onFail exprstr line)
| mc_generateFailure reason onFail line :
    MacroCode (generateFailure reason onFail line)
| mc_LT_MESSAGE line message : MacroCode (LT_MESSAGE line message)
| mc_LT_PRINT_EXPR {T} {V : ValueType T} line exprstr (v : T) :
    MacroCode (LT_PRINT_EXPR line exprstr v).

(** The tests of a suite, all written that way. *)
Definition tests_are_macro_code (su : TestSuite) : Prop :=
  Forall (fun t : Test => MacroCode (func t)) (tests su).

(** [s1] is [s] after calls [evs] of assertions and messages, each pass and
    each failure among them counted once, in the total and in the current
    test; nothing else differs. *)
Definition tallied (s s1 : Ctx) : Prop :=
  exists evs,
    output s1 = output s ++ evs /\
    forallb is_test_event evs = true /\
    counted (mkTestStats (count_events is_pass_event evs) (count_events is_fail_event evs))
      s s1.

Definition Tallies {A} (m : M Ctx A) : Prop :=
  forall s, tallied s (snd (m s)).

(** During a run that began with [counter = c0], beside [run_inv]: each
    pass and each failure counted in the total has its call among those the
    formatter received, and the footers received carry the stats recorded
    since the start of the run. *)
Definition report_inv (c0 : Z) (s : Ctx) : Prop :=
  run_inv c0 s /\
  count_events is_pass_event (output s) = passes (totalStats_ s) /\
  count_events is_fail_event (output s) = fails (totalStats_ s) /\
  footer_stats (output s) = recorded_since c0 s.

(** The tests at the requested indices that are in range, as a formatter
    sees them. *)
Definition requested_tests (su : TestSuite) (testIdx : list Z) : list TestView :=
  omap (fun i => view <$> vec_at (tests su) i) testIdx.

(** The calls that carry a message or the value of an expression. *)
Definition is_message_event (ev : Event) : bool :=
  match ev with
  | formatMessage _ _ | formatExpr _ _ _ => true
  | _ => false
  end.

(** The calls for which the Markdown formatter of a level writes a line. *)
Definition shown_at (level : LogLevel.t) (ev : Event) : bool :=
  if is_pass_event ev then Markdown.logPasses level
  else if is_message_event ev then Markdown.logMesages level
  else true.

(** * Lemmas *)

(** ** Sequencing and vectors *)

Lemma bind_normal {S A B} (m : M S A) (k : A -> M S B) s a s1 :
  m s = (Normal a, s1) -> bind m k s = k a s1.
Proof. intros E. unfold bind. now rewrite E. Qed.

Lemma bind_raised {S A B} (m : M S A) (k : A -> M S B) s e s1 :
  m s = (Raised e, s1) -> bind m k s = (Raised e, s1).
Proof. intros E. unfold bind. now rewrite E. Qed.

Lemma vec_at_alter {A} (f : A -> A) (v : list A) (i : Z) :
  vec_at (vec_alter f i v) i = f <$> vec_at v i.
Proof.
  unfold vec_at, vec_alter. destruct (0 <=? i); [|reflexivity].
  apply list_lookup_alter_eq.
Qed.

Lemma vec_alter_id {A} (f : A -> A) (i : Z) (v : list A) :
  (forall x, f x = x) -> vec_alter f i v = v.
Proof. intros Hf. unfold vec_alter. destruct (0 <=? i); [now apply list_alter_id|reflexivity]. Qed.

Lemma vec_alter_ext {A} (f g : A -> A) (i : Z) (v : list A) :
  (forall x, f x = g x) -> vec_alter f i v = vec_alter g i v.
Proof.
  intros Hf. unfold vec_alter. destruct (0 <=? i); [|reflexivity].
  apply list_alter_ext; auto.
Qed.

Lemma vec_alter_alter {A} (f g : A -> A) (i : Z) (v : list A) :
  vec_alter f i (vec_alter g i v) = vec_alter (f ∘ g) i v.
Proof. unfold vec_alter. destruct (0 <=? i); [apply list_alter_alter_eq|reflexivity]. Qed.

Lemma vec_at_app_last {A} (v : list A) (x : A) (i : Z) :
  i = Z.of_nat (length v) -> vec_at (v ++ [x]) i = Some x.
Proof.
  intros ->. unfold vec_at.
  destruct (Z.leb_spec 0 (Z.of_nat (length v))); [|lia].
  rewrite Nat2Z.id. rewrite lookup_app_r by lia. now rewrite Nat.sub_diag.
Qed.

Lemma vec_at_Some {A} (v : list A) (i : Z) (x : A) :
  vec_at v i = Some x -> 0 <= i < Z.of_nat (length v).
Proof.
  unfold vec_at. destruct (Z.leb_spec 0 i); [|discriminate].
  intros L. apply lookup_lt_Some in L. lia.
Qed.

Lemma vec_at_in_range {A} (v : list A) (i : Z) :
  0 <= i < Z.of_nat (length v) -> exists x, vec_at v i = Some x.
Proof.
  intros [H0 H1]. unfold vec_at. destruct (Z.leb_spec 0 i); [|lia].
  destruct (v !! Z.to_nat i) eqn:L; [eauto|].
  apply lookup_ge_None in L. lia.
Qed.

Lemma vec_at_Forall {A} (P : A -> Prop) (v : list A) (i : Z) (x : A) :
  Forall P v -> vec_at v i = Some x -> P x.
Proof.
  unfold vec_at. intros HP. destruct (0 <=? i); [|discriminate].
  intros L. exact (proj1 (Forall_lookup P v) HP _ _ L).
Qed.

(** ** What a recorded pass or failure changes *)

Lemma failure_recorded_total ev s :
  totalStats_ (failure_recorded ev s) = incr_fails (totalStats_ s).
Proof. reflexivity. Qed.

Lemma failure_recorded_current ev s :
  in_test s -> currentTestStats (failure_recorded ev s) = incr_fails (currentTestStats s).
Proof.
  intros [H0 H1]. unfold currentTestStats, failure_recorded. cbn.
  rewrite vec_at_alter. unfold vec_at.
  destruct (0 <=? counter s) eqn:E; [|lia].
  destruct (stats_ s !! Z.to_nat (counter s)) eqn:L; [reflexivity|].
  apply lookup_ge_None in L. lia.
Qed.

Lemma failure_recorded_output ev s :
  output (failure_recorded ev s) = output s ++ [ev].
Proof. reflexivity. Qed.

Lemma failure_recorded_mode ev s : mode (failure_recorded ev s) = mode s.
Proof. reflexivity. Qed.

Lemma failure_recorded_in_test ev s : in_test s -> in_test (failure_recorded ev s).
Proof.
  unfold in_test, failure_recorded. cbn. unfold vec_alter.
  destruct (0 <=? counter s); [rewrite length_alter|]; trivial.
Qed.

Lemma pass_recorded_total ev s :
  totalStats_ (pass_recorded ev s) = incr_passes (totalStats_ s).
Proof. reflexivity. Qed.

Lemma pass_recorded_current ev s :
  in_test s -> currentTestStats (pass_recorded ev s) = incr_passes (currentTestStats s).
Proof.
  intros [H0 H1]. unfold currentTestStats, pass_recorded. cbn.
  rewrite vec_at_alter. unfold vec_at.
  destruct (Z.leb_spec 0 (counter s)); [|lia].
  destruct (stats_ s !! Z.to_nat (counter s)) eqn:L; [reflexivity|].
  apply lookup_ge_None in L. lia.
Qed.

Lemma pass_recorded_output ev s : output (pass_recorded ev s) = output s ++ [ev].
Proof. reflexivity. Qed.

Lemma pass_recorded_mode ev s : mode (pass_recorded ev s) = mode s.
Proof. reflexivity. Qed.

Lemma pass_recorded_in_test ev s : in_test s -> in_test (pass_recorded ev s).
Proof.
  unfold in_test, pass_recorded. cbn. unfold vec_alter.
  destruct (0 <=? counter s); [rewrite length_alter|]; trivial.
Qed.

(** ** The assertion functions, path by path *)

Ltac unfold_asserts :=
  unfold evaluate, check, equal, throwsType, throws, generateFailure,
    reportException, catch_all, try_catch in *.

(** Every assertion kind, on its failure path: what is recorded, and how
    the failure is resolved from [mode] and [onFail]. *)
Lemma failing_evaluate (a : Assertion) (s s1 : Ctx) :
  failing a s s1 ->
  exists (ev : Event) (s2 : Ctx) (r1 r2 : string),
    s2 = failure_recorded ev s1 /\
    evaluate a s =
      match mode s1, policy a with
      | Mode.Continue, OnAssertionFailure.Continue => (Normal Failed, s2)
      | Mode.Continue, OnAssertionFailure.Abort =>
          match a with
          | Equal _ _ _ exprstr line =>
              (Raised (TestAbortException line "Caught in assertion"),
               failure_recorded (formatUnexpectedException line exprstr r1) s2)
          | _ => (Raised (TestAbortException (line_of a) r1), s2)
          end
      | Mode.Throw, _ =>
          match a with
          | Equal _ _ _ exprstr line =>
              (Raised (AssertionFailureException ("Unexpected exception in: " +:+ exprstr)),
               failure_recorded (formatUnexpectedException line exprstr r2) s2)
          | _ => (Raised (AssertionFailureException r2), s2)
          end
      end.
Proof.
  destruct a as [f onFail exprstr line|T V val f onFail exprstr line
                |TT f onFail exprstr line|f onFail exprstr line|reason onFail line];
    cbn [failing policy line_of]; intros Hf.
  - exists (formatFailedCheck line exprstr), (failure_recorded (formatFailedCheck line exprstr) s1),
      "Check failed.", ("Broken assertion in: " +:+ exprstr).
    split; [reflexivity|].
    unfold_asserts. rewrite Hf. cbn.
    destruct (mode s1), onFail; reflexivity.
  - destruct Hf as (res & Hf & Hne).
    exists (formatFailedEquals line exprstr (descriptionIfAvailable val) (descriptionIfAvailable res)),
      (failure_recorded (formatFailedEquals line exprstr (descriptionIfAvailable val)
                           (descriptionIfAvailable res)) s1),
      "Equal failed.", ("Unexpected value in: " +:+ exprstr).
    split; [reflexivity|].
    unfold_asserts. unfold bind at 1. rewrite Hf, Hne. cbn.
    destruct (mode s1) eqn:Hm, onFail; cbn; rewrite ?Hm; reflexivity.
  - exists (formatFailedThrow line exprstr), (failure_recorded (formatFailedThrow line exprstr) s1),
      "No exception in throw assertion.", ("No exception in " +:+ exprstr).
    split; [reflexivity|].
    unfold_asserts. rewrite Hf. cbn.
    destruct (mode s1), onFail; reflexivity.
  - exists (formatFailedThrow line exprstr), (failure_recorded (formatFailedThrow line exprstr) s1),
      "No exception in throw assertion.", ("No exception in: " +:+ exprstr).
    split; [reflexivity|].
    unfold_asserts. rewrite Hf. cbn.
    destruct (mode s1), onFail; reflexivity.
  - subst s1.
    exists (formatManualFailure line reason), (failure_recorded (formatManualFailure line reason) s),
      "Manual failure", ("Manual failure, reason: " +:+ reason).
    split; [reflexivity|].
    unfold_asserts. cbn.
    destruct (mode s), onFail; reflexivity.
Qed.

(** Every assertion kind that evaluates a callable, when the callable
    raises something the assertion is not looking for. *)
Lemma erroring_evaluate (a : Assertion) (s : Ctx) (e : exn) (s1 : Ctx) :
  erroring a s e s1 ->
  exists (msg : string),
    (forall m, what e = Some m -> msg = m) /\
    (what e = None -> msg = "N/A" \/ msg = "Uncaught exception in exception assertion") /\
    evaluate a s =
      (Raised
         match mode s1 with
         | Mode.Continue => TestAbortException (line_of a) "Caught in assertion"
         | Mode.Throw => AssertionFailureException ("Unexpected exception in: " +:+ text_of a)
         end,
       failure_recorded (formatUnexpectedException (line_of a) (text_of a) msg) s1).
Proof.
  destruct a as [f onFail exprstr line|T V val f onFail exprstr line
                |TT f onFail exprstr line|f onFail exprstr line|reason onFail line];
    cbn [erroring policy line_of text_of]; intros He; try contradiction.
  - exists (default "N/A" (what e)).
    split; [intros m ->; reflexivity|]. split; [intros ->; now left|].
    unfold_asserts. rewrite He.
    destruct (what e); cbn; destruct (mode s1); reflexivity.
  - exists (default "N/A" (what e)).
    split; [intros m ->; reflexivity|]. split; [intros ->; now left|].
    unfold_asserts. unfold bind at 1. rewrite He.
    destruct (what e); cbn; destruct (mode s1); reflexivity.
  - destruct He as [He Hno].
    exists (default "Uncaught exception in exception assertion" (what e)).
    split; [intros m ->; reflexivity|]. split; [intros ->; now right|].
    unfold_asserts. rewrite He, Hno.
    destruct (what e); cbn; destruct (mode s1); reflexivity.
Qed.

(** Every assertion kind, on its pass path, whatever [mode] and [onFail]. *)
Lemma passing_evaluate (a : Assertion) (s s1 : Ctx) :
  passing a s s1 ->
  exists (ev : Event), evaluate a s = (Normal Passed, pass_recorded ev s1).
Proof.
  destruct a as [f onFail exprstr line|T V val f onFail exprstr line
                |TT f onFail exprstr line|f onFail exprstr line|reason onFail line];
    cbn [passing]; intros Hf; try contradiction.
  - exists (formatPassedCheck line exprstr). unfold_asserts. now rewrite Hf.
  - destruct Hf as (res & Hf & Heq).
    exists (formatPassedEquals line exprstr (descriptionIfAvailable val)).
    unfold_asserts. unfold bind at 1. now rewrite Hf, Heq.
  - destruct Hf as (e & Hf & Ht).
    exists (formatPassedThrow line exprstr). unfold_asserts. now rewrite Hf, Ht.
  - destruct Hf as (e & Hf).
    exists (formatPassedThrow line exprstr). unfold_asserts. now rewrite Hf.
Qed.

(** A test function is entered with a fresh stats slot of its own. *)
Lemma entry_fresh (test : Test) (s : Ctx) :
  counter s + 1 = Z.of_nat (length (stats_ s)) ->
  in_test (entry test s) /\
  currentTestStats (entry test s) = mkTestStats 0 0 /\
  mode (entry test s) = mode s.
Proof.
  intros Hc. unfold entry, in_test, currentTestStats. cbn.
  rewrite length_app, (vec_at_app_last _ _ _ Hc). cbn.
  repeat split; lia.
Qed.

(** ** The run loop *)

(** [run_test], by how the test function ends. *)
Lemma run_test_eq (test : Test) (s : Ctx) :
  run_test test s =
    match func test (entry test s) with
    | (Normal _, s1) =>
        (Normal tt,
         set_output
           (output s1 ++
            [formatTestFooter
               (view (set_duration (clock s1 (clock_reads s1) - clock s (clock_reads s)) test))
               (currentTestStats s1)])
           (set_clock_reads (S (clock_reads s1)) s1))
    | (Raised e, s1) =>
        (Normal tt,
         set_output
           (output s1 ++
            [formatAbortedTest (fst (abort_report e)) (snd (abort_report e));
             formatTestFooter (view (set_aborted true test)) (currentTestStats s1)])
           s1)
    end.
Proof.
  unfold run_test, run_try, try_catch, entry, startTest, emit, now, bind, modify, gets, ret.
  cbn.
  destruct (func test _) as [[[]|e] s1]; [reflexivity|].
  destruct e; cbn; rewrite <- app_assoc; reflexivity.
Qed.

(** A test whose function raises [e]: the copy is marked aborted, the
    formatter is told, and the footer follows. *)
Lemma run_test_raised (test : Test) (s : Ctx) (e : exn) (s1 : Ctx) :
  func test (entry test s) = (Raised e, s1) ->
  run_test test s =
    (Normal tt,
     set_output
       (output s1 ++
        [formatAbortedTest (fst (abort_report e)) (snd (abort_report e));
         formatTestFooter (view (set_aborted true test)) (currentTestStats s1)])
       s1).
Proof. intros Hf. rewrite run_test_eq, Hf. reflexivity. Qed.

(** A test whose function returns: the copy gets its duration. *)
Lemma run_test_normal (test : Test) (s : Ctx) (s1 : Ctx) :
  func test (entry test s) = (Normal tt, s1) ->
  run_test test s =
    (Normal tt,
     set_output
       (output s1 ++
        [formatTestFooter
           (view (set_duration (clock s1 (clock_reads s1) - clock s (clock_reads s)) test))
           (currentTestStats s1)])
       (set_clock_reads (S (clock_reads s1)) s1)).
Proof. intros Hf. rewrite run_test_eq, Hf. reflexivity. Qed.

(** A test function always leaves [run_test] by a normal return. *)
Lemma run_test_returns (test : Test) (s : Ctx) :
  exists s1, run_test test s = (Normal tt, s1).
Proof.
  destruct (func test (entry test s)) as [[[]|e] s1] eqn:Hf.
  - eexists. apply run_test_normal; eassumption.
  - eexists. apply run_test_raised; eassumption.
Qed.

(** A requested index outside [0 .. size-1] is skipped. *)
Lemma run_index_out_of_range (i : Z) (su : TestSuite) :
  ~ (0 <= i < Z.of_nat (length (tests su))) -> run_index i su = (Normal tt, su).
Proof.
  intros Hout. unfold run_index.
  destruct (Z.leb_spec 0 i), (Z.ltb_spec i (Z.of_nat (length (tests su)))); cbn;
    try reflexivity.
  lia.
Qed.

(** A requested index inside the range runs the test at that position. *)
Lemma run_index_in_range (i : Z) (su : TestSuite) (test : Test) :
  vec_at (tests su) i = Some test -> run_index i su = on_ctx (run_test test) su.
Proof.
  intros Hat. pose proof (vec_at_Some _ _ _ Hat) as [H0 H1]. unfold run_index.
  destruct (Z.leb_spec 0 i), (Z.ltb_spec i (Z.of_nat (length (tests su)))); cbn;
    try lia.
  now rewrite Hat.
Qed.

(** A turn of the loop returns normally and leaves [tests] as it was. *)
Lemma run_index_returns (i : Z) (su : TestSuite) :
  exists c, run_index i su = (Normal tt, set_ctx c su).
Proof.
  destruct (decide (0 <= i < Z.of_nat (length (tests su)))) as [Hin|Hout].
  - destruct (vec_at_in_range _ _ Hin) as (test & Hat).
    rewrite (run_index_in_range _ _ _ Hat). unfold on_ctx.
    destruct (run_test_returns test (ctx su)) as (c & ->). now exists c.
  - rewrite (run_index_out_of_range _ _ Hout). exists (ctx su). now destruct su.
Qed.

Lemma for_each_run_index_returns (l : list Z) (su : TestSuite) :
  exists c, for_each l run_index su = (Normal tt, set_ctx c su).
Proof.
  revert su. induction l as [|i l IH]; intros su; cbn [for_each].
  - exists (ctx su). now destruct su.
  - destruct (run_index_returns i su) as (c & Hi).
    rewrite (bind_normal _ _ _ _ _ Hi).
    destruct (IH (set_ctx c su)) as (c' & ->). now exists c'.
Qed.

Lemma runSome_eq (testIdx : list Z) (m : Mode.t) (su : TestSuite) :
  runSome testIdx m su =
    match for_each testIdx run_index (run_started m su) with
    | (Normal _, su1) => (Normal tt, run_ended (clock (ctx su) (clock_reads (ctx su))) su1)
    | (Raised e, su1) => (Raised e, su1)
    end.
Proof.
  unfold runSome, run_started, run_ended, on_ctx, bind, modify, now, emit, ret. cbn.
  destruct (for_each testIdx run_index _) as [[[]|e] su1]; reflexivity.
Qed.

(** [runSome] and [run] return normally, whatever the test functions do. *)
Lemma runSome_returns (testIdx : list Z) (m : Mode.t) (su : TestSuite) :
  exists su1, runSome testIdx m su = (Normal tt, su1) /\ tests su1 = tests su.
Proof.
  rewrite runSome_eq.
  destruct (for_each_run_index_returns testIdx (run_started m su)) as (c & ->).
  eexists. split; reflexivity.
Qed.

(** ** Test code and the counters *)

Lemma TestCode_resolution (p : OnAssertionFailure.t) (e1 e2 : exn) :
  TestCode (m <- gets mode ;;
            match m with
            | Mode.Throw => raise e1
            | Mode.Continue =>
                match p with
                | OnAssertionFailure.Abort => raise e2
                | OnAssertionFailure.Continue => ret Failed
                end
            end).
Proof. apply tc_bind; [apply tc_gets|]. intros []; [destruct p|]; constructor. Qed.

(** One step of a derivation of [TestCode], the members first. *)
Ltac tc_step :=
  first [ apply tc_failed | apply tc_passed | apply tc_emit | apply tc_gets
        | apply tc_ret | apply tc_raise | apply TestCode_resolution
        | assumption
        | apply tc_bind; [|intros ?] ].

Section AssertionsAreTestCode.

Variables (onFail : OnAssertionFailure.t) (exprstr : string) (line : Z).

Lemma TestCode_reportException (msg : string) (p : OnAssertionFailure.t) :
  TestCode (reportException line exprstr msg p).
Proof. unfold reportException. repeat tc_step. Qed.

Lemma TestCode_catch_all (e : exn) (h : M Ctx AssertionResult) :
  catch_all line exprstr e = Some h -> TestCode h.
Proof.
  unfold catch_all. destruct (what e); intros [= <-]; apply TestCode_reportException.
Qed.

Lemma TestCode_check (f : M Ctx bool) :
  TestCode f -> TestCode (check f onFail exprstr line).
Proof.
  intros Hf. unfold check. apply tc_try_catch; [exact Hf|apply TestCode_catch_all|].
  intros []; cbn; repeat tc_step.
Qed.

Lemma TestCode_equal {T} `{ValueType T} (val : T) (f : M Ctx T) :
  TestCode f -> TestCode (equal val f onFail exprstr line).
Proof.
  intros Hf. unfold equal.
  apply tc_try_catch; [|apply TestCode_catch_all|intros; apply tc_ret].
  apply tc_bind; [exact Hf|]. intros res.
  destruct (negb (value_eq res val)); repeat tc_step.
Qed.

Lemma TestCode_throwsType (ThrownType : exn -> bool) (f : M Ctx unit) :
  TestCode f -> TestCode (throwsType ThrownType f onFail exprstr line).
Proof.
  intros Hf. unfold throwsType. apply tc_try_catch; [exact Hf| |].
  - intros e h. destruct (ThrownType e); [|destruct (what e)]; intros [= <-];
      try apply TestCode_reportException.
    repeat tc_step.
  - intros _. repeat tc_step.
Qed.

Lemma TestCode_throws (f : M Ctx unit) :
  TestCode f -> TestCode (throws f onFail exprstr line).
Proof.
  intros Hf. unfold throws. apply tc_try_catch; [exact Hf| |].
  - intros e h [= <-]. repeat tc_step.
  - intros _. repeat tc_step.
Qed.

Lemma TestCode_generateFailure :
  TestCode (generateFailure exprstr onFail line).
Proof. unfold generateFailure. repeat tc_step. Qed.

Lemma TestCode_LT_MESSAGE : TestCode (LT_MESSAGE line exprstr).
Proof. apply tc_emit. Qed.

Lemma TestCode_LT_PRINT_EXPR {T} `{ValueType T} (v : T) :
  TestCode (LT_PRINT_EXPR line exprstr v).
Proof. apply tc_emit. Qed.

End AssertionsAreTestCode.

#[export] Hint Resolve TestCode_check TestCode_equal TestCode_throwsType TestCode_throws
  TestCode_generateFailure TestCode_LT_MESSAGE TestCode_LT_PRINT_EXPR : testcode.

(** An assertion call is test code when its callable is. *)
Lemma TestCode_evaluate (a : Assertion) :
  match a with
  | Check f _ _ _ => TestCode f
  | Equal _ f _ _ _ => TestCode f
  | ThrowsType _ f _ _ _ => TestCode f
  | Throws f _ _ _ => TestCode f
  | GenerateFailure _ _ _ => True
  end ->
  TestCode (evaluate a).
Proof. destruct a; cbn; auto with testcode. Qed.

Lemma add_stats_zero (t : TestStats) : add_stats (mkTestStats 0 0) t = t.
Proof. destruct t. unfold add_stats. cbn. f_equal; lia. Qed.

Lemma add_stats_comm (a b : TestStats) : add_stats a b = add_stats b a.
Proof. unfold add_stats. f_equal; lia. Qed.

Lemma add_stats_compose (a b : TestStats) (t : TestStats) :
  add_stats b (add_stats a t) = add_stats (add_stats b a) t.
Proof. unfold add_stats. cbn. f_equal; lia. Qed.

Lemma incr_passes_add (t : TestStats) : incr_passes t = add_stats (mkTestStats 1 0) t.
Proof. unfold incr_passes, add_stats. cbn. f_equal; lia. Qed.

Lemma incr_fails_add (t : TestStats) : incr_fails t = add_stats (mkTestStats 0 1) t.
Proof. unfold incr_fails, add_stats. cbn. f_equal; lia. Qed.

Lemma stats_sum_app (l k : list TestStats) :
  stats_sum (l ++ k) = add_stats (stats_sum l) (stats_sum k).
Proof.
  induction l as [|a l IH].
  - change (stats_sum k = add_stats (mkTestStats 0 0) (stats_sum k)).
    now rewrite add_stats_zero.
  - change (add_stats a (stats_sum (l ++ k))
            = add_stats (add_stats a (stats_sum l)) (stats_sum k)).
    rewrite IH. unfold add_stats. cbn. f_equal; lia.
Qed.

Lemma stats_sum_alter (d : TestStats) (l : list TestStats) (j : nat) :
  (j < length l)%nat -> stats_sum (alter (add_stats d) j l) = add_stats d (stats_sum l).
Proof.
  revert j. induction l as [|a l IH]; intros j Hj; cbn in Hj; [lia|].
  destruct j as [|j].
  - change (add_stats (add_stats d a) (stats_sum l) = add_stats d (add_stats a (stats_sum l))).
    unfold add_stats. cbn. f_equal; lia.
  - change (add_stats a (stats_sum (alter (add_stats d) j l))
            = add_stats d (add_stats a (stats_sum l))).
    rewrite IH by lia. unfold add_stats. cbn. f_equal; lia.
Qed.

Lemma counted_refl (s : Ctx) : counted (mkTestStats 0 0) s s.
Proof.
  unfold counted. rewrite add_stats_zero, (vec_alter_id _ _ _ add_stats_zero).
  repeat split; cbn; try lia. exists []. now rewrite app_nil_r.
Qed.

Lemma counted_trans (d1 d2 : TestStats) (s s1 s2 : Ctx) :
  counted d1 s s1 -> counted d2 s1 s2 -> counted (add_stats d2 d1) s s2.
Proof.
  intros (Hc1 & Hm1 & Hk1 & Hr1 & Ht1 & Hs1 & (ev1 & Ho1) & Hp1 & Hf1)
         (Hc2 & Hm2 & Hk2 & Hr2 & Ht2 & Hs2 & (ev2 & Ho2) & Hp2 & Hf2).
  unfold counted. rewrite Hc2, Hm2, Hk2, Hr2, Ht2, Hs2, Ho2, Hc1, Hm1, Hk1, Hr1, Ht1, Hs1, Ho1.
  repeat split; cbn; try lia.
  - apply add_stats_compose.
  - rewrite vec_alter_alter. apply vec_alter_ext. intros x. cbn. apply add_stats_compose.
  - exists (ev1 ++ ev2). now rewrite app_assoc.
Qed.

(** Test code counts: whatever it does and however it ends, it leaves the
    suite as it found it but for what it counted, in the total and in the
    current test alike, and for the calls it sent to the formatter. *)
Lemma TestCode_counted {A} (m : M Ctx A) :
  TestCode m -> forall s, exists d, counted d s (snd (m s)).
Proof.
  induction 1 as [A a|A e|A B m k Hm IHm Hk IHk|A B body handlers rest Hb IHb Hh IHh Hr IHr
                 | | |ev|A f]; intros s.
  - exists (mkTestStats 0 0). apply counted_refl.
  - exists (mkTestStats 0 0). apply counted_refl.
  - destruct (IHm s) as (d1 & H1). unfold bind.
    destruct (m s) as [[a|e] s1]; cbn in H1 |- *; [|eauto].
    destruct (IHk a s1) as (d2 & H2). eauto using counted_trans.
  - destruct (IHb s) as (d1 & H1). unfold try_catch.
    destruct (body s) as [[a|e] s1]; cbn in H1 |- *.
    + destruct (IHr a s1) as (d2 & H2). eauto using counted_trans.
    + destruct (handlers e) as [h|] eqn:Hhe; cbn; [|eauto].
      destruct (IHh e h Hhe s1) as (d2 & H2). eauto using counted_trans.
  - exists (mkTestStats 1 0). unfold counted. cbn.
    rewrite incr_passes_add. repeat split; try lia.
    + apply vec_alter_ext, incr_passes_add.
    + exists []. now rewrite app_nil_r.
  - exists (mkTestStats 0 1). unfold counted. cbn.
    rewrite incr_fails_add. repeat split; try lia.
    + apply vec_alter_ext, incr_fails_add.
    + exists []. now rewrite app_nil_r.
  - exists (mkTestStats 0 0). unfold counted. cbn.
    rewrite add_stats_zero, (vec_alter_id _ _ _ add_stats_zero).
    repeat split; try lia. now exists [ev].
  - exists (mkTestStats 0 0). apply counted_refl.
Qed.

(** ** The invariant of a run *)

Lemma run_inv_counted (c0 : Z) (d : TestStats) (s s1 : Ctx) :
  run_inv c0 s -> c0 < counter s -> counted d s s1 -> run_inv c0 s1.
Proof.
  intros (Hc & Hlen & Htot) Hlt (Hc1 & _ & _ & _ & Ht1 & Hs1 & _).
  unfold run_inv, recorded_since in *. rewrite Hc1, Ht1, Hs1, Htot.
  unfold vec_alter. destruct (Z.leb_spec 0 (counter s)); [|lia].
  rewrite length_alter. repeat split; try lia.
  rewrite drop_alter_ge by lia.
  rewrite stats_sum_alter; [reflexivity|]. rewrite length_drop. lia.
Qed.

Lemma run_inv_entry (c0 : Z) (test : Test) (s : Ctx) :
  run_inv c0 s -> run_inv c0 (entry test s) /\ c0 < counter (entry test s).
Proof.
  intros (Hc & Hlen & Htot). unfold run_inv, recorded_since, entry in *. cbn.
  rewrite length_app. cbn. repeat split; try lia.
  rewrite drop_app_le by lia. rewrite stats_sum_app, Htot.
  now rewrite add_stats_comm, add_stats_zero.
Qed.

(** A turn of the loop keeps the invariant of the run. *)
Lemma run_test_inv (c0 : Z) (test : Test) (s : Ctx) :
  TestCode (func test) -> run_inv c0 s -> run_inv c0 (snd (run_test test s)).
Proof.
  intros Htc Hinv. destruct (run_inv_entry c0 test s Hinv) as (Hent & Hlt).
  destruct (TestCode_counted _ Htc (entry test s)) as (d & Hd).
  pose proof (run_inv_counted _ _ _ _ Hent Hlt Hd) as H1.
  rewrite run_test_eq. destruct (func test (entry test s)) as [[[]|e] s1]; exact H1.
Qed.

Lemma run_index_inv (c0 : Z) (i : Z) (su : TestSuite) :
  tests_are_code su -> run_inv c0 (ctx su) ->
  run_inv c0 (ctx (snd (run_index i su))) /\ tests (snd (run_index i su)) = tests su.
Proof.
  intros Hcode Hinv.
  destruct (decide (0 <= i < Z.of_nat (length (tests su)))) as [Hin|Hout].
  - destruct (vec_at_in_range _ _ Hin) as (test & Hat).
    rewrite (run_index_in_range _ _ _ Hat). unfold on_ctx.
    pose proof (run_test_inv c0 test (ctx su) (vec_at_Forall _ _ _ _ Hcode Hat) Hinv) as H.
    destruct (run_test test (ctx su)) as [r c]. split; [exact H|reflexivity].
  - rewrite (run_index_out_of_range _ _ Hout). split; [exact Hinv|reflexivity].
Qed.

Lemma for_each_run_index_inv (c0 : Z) (l : list Z) (su : TestSuite) :
  tests_are_code su -> run_inv c0 (ctx su) ->
  run_inv c0 (ctx (snd (for_each l run_index su))) /\
  tests (snd (for_each l run_index su)) = tests su.
Proof.
  revert su. induction l as [|i l IH]; intros su Hcode Hinv; cbn [for_each].
  - split; [exact Hinv|reflexivity].
  - destruct (run_index_inv c0 i su Hcode Hinv) as (H1 & Ht1).
    destruct (run_index_returns i su) as (c & Hi).
    rewrite Hi in H1, Ht1. rewrite (bind_normal _ _ _ _ _ Hi).
    destruct (IH (set_ctx c su)) as (H2 & Ht2); [exact Hcode|exact H1|].
    split; [exact H2|]. now rewrite Ht2.
Qed.

(** [runSome] starts the run with a zero total: the invariant holds, for
    the value [counter] has then. *)
Lemma run_started_inv (m : Mode.t) (su : TestSuite) :
  -1 <= counter (ctx su) ->
  counter (ctx su) + 1 = Z.of_nat (length (stats_ (ctx su))) ->
  run_inv (counter (ctx su)) (ctx (run_started m su)) /\
  totalStats_ (ctx (run_started m su)) = mkTestStats 0 0 /\
  tests (run_started m su) = tests su.
Proof.
  intros H0 Hlen. unfold run_inv, recorded_since, run_started. cbn.
  repeat split; try lia.
  rewrite drop_ge by lia. reflexivity.
Qed.

(** The invariant holds when [runSome] returns. *)
Lemma runSome_inv (testIdx : list Z) (m : Mode.t) (su : TestSuite) :
  tests_are_code su ->
  -1 <= counter (ctx su) ->
  counter (ctx su) + 1 = Z.of_nat (length (stats_ (ctx su))) ->
  run_inv (counter (ctx su)) (ctx (snd (runSome testIdx m su))).
Proof.
  intros Hcode H0 Hlen.
  destruct (run_started_inv m su H0 Hlen) as (Hinv & _ & Ht).
  assert (Hcode' : tests_are_code (run_started m su)) by (unfold tests_are_code; now rewrite Ht).
  destruct (for_each_run_index_inv _ testIdx _ Hcode' Hinv) as (H1 & _).
  rewrite runSome_eq.
  destruct (for_each_run_index_returns testIdx (run_started m su)) as (c & Hl).
  rewrite Hl in H1 |- *. exact H1.
Qed.

(** ** The suites of a program *)

Lemma Reachable_wf (su : TestSuite) :
  Reachable su ->
  tests_are_code su /\
  indexed_from_one su /\
  -1 <= counter (ctx su) /\
  counter (ctx su) + 1 = Z.of_nat (length (stats_ (ctx su))).
Proof.
  assert (Hrun : forall testIdx m su0,
    tests_are_code su0 /\ indexed_from_one su0 /\ -1 <= counter (ctx su0) /\
    counter (ctx su0) + 1 = Z.of_nat (length (stats_ (ctx su0))) ->
    tests_are_code (snd (runSome testIdx m su0)) /\
    indexed_from_one (snd (runSome testIdx m su0)) /\
    -1 <= counter (ctx (snd (runSome testIdx m su0))) /\
    counter (ctx (snd (runSome testIdx m su0))) + 1
      = Z.of_nat (length (stats_ (ctx (snd (runSome testIdx m su0)))))).
  { intros testIdx m su0 (Hcode & Hidx & H0 & Hlen).
    pose proof (runSome_inv testIdx m su0 Hcode H0 Hlen) as (Hc & Hl & _).
    destruct (runSome_returns testIdx m su0) as (su1 & Hr & Ht).
    rewrite Hr in Hc, Hl |- *. cbn [snd] in *.
    unfold tests_are_code, indexed_from_one. rewrite Ht.
    repeat split; trivial; lia. }
  induction 1 as [suite_name clk|test_name f test_file su Hsu IH Hf|testIdx m su Hsu IH
                 |m su Hsu IH].
  - repeat split; try (cbn; lia).
    + constructor.
    + intros k t L. destruct k; discriminate.
  - destruct IH as (Hcode & Hidx & H0 & Hlen). repeat split; trivial.
    + unfold tests_are_code, addTest. cbn. apply Forall_app. split; [exact Hcode|].
      repeat constructor. exact Hf.
    + intros k t. unfold addTest. cbn. intros L.
      apply lookup_app_Some in L as [L|[Hge L]]; [now apply Hidx|].
      apply list_lookup_singleton_Some in L as [Hk <-]. cbn. lia.
  - now apply Hrun.
  - unfold run. now apply Hrun.
Qed.

(** The example program is one of them. *)
Ltac tc_example :=
  repeat first
    [ apply TestCode_check | apply TestCode_equal | apply TestCode_throwsType
    | apply TestCode_throws | apply TestCode_generateFailure
    | apply TestCode_LT_MESSAGE | apply TestCode_LT_PRINT_EXPR
    | tc_step ].

Lemma Example_suite_Reachable : Reachable Example.suite.
Proof.
  unfold Example.suite.
  repeat (apply reach_addTest); [apply reach_new| | | |].
  - unfold Example.tests_that_pass. tc_example.
  - unfold Example.tests_that_fail. tc_example.
  - unfold Example.aborted_early. tc_example.
  - unfold Example.throw_outside. tc_example.
Qed.

(** A test that is run gets a stats slot of its own, and the formatter gets
    its header first. *)
Lemma run_test_effect (test : Test) (s : Ctx) :
  TestCode (func test) ->
  counter (snd (run_test test s)) = counter s + 1 /\
  exists evs, output (snd (run_test test s)) = output s ++ formatTestHeader (view test) :: evs.
Proof.
  intros Htc.
  destruct (TestCode_counted _ Htc (entry test s)) as (d & Hc & _ & _ & _ & _ & _ & (evs & Ho) & _).
  rewrite run_test_eq.
  assert (He : counter (entry test s) = counter s + 1) by reflexivity.
  assert (Hoe : output (entry test s) = output s ++ [formatTestHeader (view test)])
    by reflexivity.
  destruct (func test (entry test s)) as [[[]|e] s1]; cbn [snd] in *;
    (split; [cbn; lia|]);
    cbn [output set_output]; rewrite Ho, Hoe, <- !app_assoc; cbn; eauto.
Qed.

Lemma for_each_run_index_counter (l : list Z) (su : TestSuite) :
  tests_are_code su ->
  counter (ctx (snd (for_each l run_index su)))
    = counter (ctx su) + Z.of_nat (length (in_range_of su l)).
Proof.
  revert su. induction l as [|i l IH]; intros su Hcode; cbn [for_each].
  - cbn. lia.
  - destruct (run_index_returns i su) as (c & Hi).
    rewrite (bind_normal _ _ _ _ _ Hi).
    rewrite IH by exact Hcode.
    unfold in_range_of. cbn [tests set_ctx]. rewrite filter_cons.
    destruct (decide (0 <= i < Z.of_nat (length (tests su)))) as [Hin|Hout].
    + destruct (vec_at_in_range _ _ Hin) as (test & Hat).
      rewrite (run_index_in_range _ _ _ Hat) in Hi. unfold on_ctx in Hi.
      destruct (run_test_effect test (ctx su) (vec_at_Forall _ _ _ _ Hcode Hat)) as (Hc & _).
      destruct (run_test test (ctx su)) as [r c1]. injection Hi as _ Hi.
      cbn in Hc. subst c1. cbn. lia.
    + rewrite (run_index_out_of_range _ _ Hout) in Hi. injection Hi as Hi.
      apply (f_equal ctx) in Hi. cbn in Hi. subst c. reflexivity.
Qed.

(** A run gives one stats slot to each requested index that is in range. *)
Lemma runSome_counter (testIdx : list Z) (m : Mode.t) (su : TestSuite) :
  tests_are_code su ->
  counter (ctx (snd (runSome testIdx m su)))
    = counter (ctx su) + Z.of_nat (length (in_range_of su testIdx)).
Proof.
  intros Hcode. rewrite runSome_eq.
  pose proof (for_each_run_index_counter testIdx (run_started m su) Hcode) as H.
  destruct (for_each_run_index_returns testIdx (run_started m su)) as (c & Hl).
  rewrite Hl in H |- *. exact H.
Qed.

(** ** The assertion functions, by how the callable ends *)

(** The callable of an assertion ends in one of three ways. *)
Lemma assertion_cases (a : Assertion) (s : Ctx) :
  passing a s (after_callable a s) \/
  failing a s (after_callable a s) \/
  exists e, erroring a s e (after_callable a s).
Proof.
  destruct a as [f onFail exprstr line|T V val f onFail exprstr line
                |TT f onFail exprstr line|f onFail exprstr line|reason onFail line];
    cbn [passing failing erroring after_callable].
  - destruct (f s) as [[[]|e] s1]; cbn; eauto.
  - destruct (f s) as [[res|e] s1]; cbn; [|eauto].
    destruct (value_eq res val) eqn:E; eauto.
  - destruct (f s) as [[[]|e] s1]; cbn; [eauto|].
    destruct (TT e) eqn:E; eauto.
  - destruct (f s) as [[[]|e] s1]; cbn; eauto.
  - eauto.
Qed.

(** What an assertion that fails or errors returns or raises, and the mode
    it leaves. *)
Lemma not_passing_evaluate (a : Assertion) (s : Ctx) :
  failing a s (after_callable a s) \/ (exists e, erroring a s e (after_callable a s)) ->
  exists s2,
    mode s2 = mode (after_callable a s) /\
    ((evaluate a s = (Normal Failed, s2) /\
      failing a s (after_callable a s) /\
      mode s2 = Mode.Continue /\ policy a = OnAssertionFailure.Continue /\
      exists ev, s2 = failure_recorded ev (after_callable a s)) \/
     (exists r, evaluate a s = (Raised (TestAbortException (line_of a) r), s2) /\
                mode s2 = Mode.Continue /\
                (failing a s (after_callable a s) -> policy a = OnAssertionFailure.Abort)) \/
     (exists msg, evaluate a s = (Raised (AssertionFailureException msg), s2) /\
                  mode s2 = Mode.Throw)).
Proof.
  intros [Hf|(e & He)].
  - destruct (failing_evaluate a s _ Hf) as (ev & s2 & r1 & r2 & Hs2 & Hev).
    assert (Hm2 : mode s2 = mode (after_callable a s)) by (now subst s2).
    destruct (mode (after_callable a s)) eqn:Hm, (policy a) eqn:Hp.
    + exists s2. split; [exact Hm2|]. left. repeat split; eauto.
    + destruct a; (eexists; split; [|right; left; eexists; split; [exact Hev|]];
        [first [exact Hm2 | cbn; subst s2; exact Hm]
        |split; [first [exact Hm2 | cbn; subst s2; exact Hm]|trivial]]).
    + destruct a; (eexists; split; [|right; right; eexists; split; [exact Hev|]];
        first [exact Hm2 | cbn; subst s2; exact Hm]).
    + destruct a; (eexists; split; [|right; right; eexists; split; [exact Hev|]];
        first [exact Hm2 | cbn; subst s2; exact Hm]).
  - destruct (erroring_evaluate a s e _ He) as (msg & _ & _ & Hev).
    eexists. split; [apply failure_recorded_mode|].
    destruct (mode (after_callable a s)) eqn:Hm.
    + right; left. eexists. split; [exact Hev|]. split; [exact Hm|].
      intros Hf. destruct a; cbn in He, Hf; try contradiction.
      * rewrite Hf in He. discriminate.
      * destruct Hf as (res & Hf & _). rewrite Hf in He. discriminate.
      * destruct He as [He _]. rewrite Hf in He. discriminate.
    + right; right. eexists. split; [exact Hev|exact Hm].
Qed.

(** ** Requests out of range *)

(** The loop skips the indices out of range.  The range is that of the
    list of tests at each turn; the test functions of the model leave that
    list as it is. *)
Lemma for_each_run_index_in_range (l : list Z) (su : TestSuite) :
  for_each l run_index su = for_each (in_range_of su l) run_index su.
Proof.
  revert su. induction l as [|i l IH]; intros su; [reflexivity|].
  unfold in_range_of. rewrite filter_cons.
  destruct (decide (0 <= i < Z.of_nat (length (tests su)))) as [Hin|Hout]; cbn [for_each].
  - destruct (run_index_returns i su) as (c & Hi).
    rewrite !(bind_normal _ _ _ _ _ Hi). exact (IH (set_ctx c su)).
  - rewrite (bind_normal _ _ _ _ _ (run_index_out_of_range _ _ Hout)). exact (IH su).
Qed.

(** ** The stats slots of a run *)

Lemma vec_alter_last {A} (f : A -> A) (v : list A) (x : A) (i : Z) :
  i = Z.of_nat (length v) -> vec_alter f i (v ++ [x]) = v ++ [f x].
Proof.
  intros ->. unfold vec_alter.
  destruct (Z.leb_spec 0 (Z.of_nat (length v))); [|lia].
  rewrite Nat2Z.id. now rewrite alter_app_r_alt, Nat.sub_diag by lia.
Qed.

(** A turn of the loop appends one slot, the one whose stats the footer
    gets, and leaves the slots before it as they were. *)
Lemma run_test_slot (test : Test) (s : Ctx) :
  TestCode (func test) ->
  counter s + 1 = Z.of_nat (length (stats_ s)) ->
  stats_ (snd (run_test test s)) = stats_ s ++ [currentTestStats (snd (run_test test s))] /\
  counter (snd (run_test test s)) = counter s + 1 /\
  exists evs test1,
    output (snd (run_test test s))
      = output s ++ formatTestHeader (view test) :: evs
          ++ [formatTestFooter (view test1) (currentTestStats (snd (run_test test s)))].
Proof.
  intros Htc Hlen.
  destruct (TestCode_counted _ Htc (entry test s))
    as (d & Hc & _ & _ & _ & _ & Hs & (evs & Ho) & _).
  assert (He : counter (entry test s) = counter s + 1) by reflexivity.
  assert (Hse : stats_ (entry test s) = stats_ s ++ [mkTestStats 0 0]) by reflexivity.
  assert (Hoe : output (entry test s) = output s ++ [formatTestHeader (view test)])
    by reflexivity.
  rewrite Hse, He, (vec_alter_last _ _ _ _ Hlen) in Hs.
  assert (Hcur : forall s1, stats_ s1 = stats_ s ++ [add_stats d (mkTestStats 0 0)] ->
                            counter s1 = counter s + 1 ->
                            stats_ s1 = stats_ s ++ [currentTestStats s1]).
  { intros s1 H1 H2. unfold currentTestStats.
    rewrite H1 at 2. rewrite H2, (vec_at_app_last _ _ _ Hlen). exact H1. }
  rewrite run_test_eq.
  destruct (func test (entry test s)) as [[[]|e] s1]; cbn [snd] in *.
  - split; [apply Hcur; [exact Hs|cbn; lia]|]. split; [cbn; lia|].
    eexists evs, _. cbn [output set_output]. rewrite Ho, Hoe, <- !app_assoc. reflexivity.
  - split; [apply Hcur; [exact Hs|cbn; lia]|]. split; [cbn; lia|].
    eexists (evs ++ [_]), _. cbn [output set_output]. rewrite Ho, Hoe, <- !app_assoc.
    reflexivity.
Qed.

Lemma for_each_run_index_history (l : list Z) (su : TestSuite) :
  tests_are_code su ->
  counter (ctx su) + 1 = Z.of_nat (length (stats_ (ctx su))) ->
  exists new,
    stats_ (ctx (snd (for_each l run_index su))) = stats_ (ctx su) ++ new /\
    length new = length (in_range_of su l) /\
    counter (ctx (snd (for_each l run_index su))) + 1
      = Z.of_nat (length (stats_ (ctx (snd (for_each l run_index su))))).
Proof.
  revert su. induction l as [|i l IH]; intros su Hcode Hlen; cbn [for_each].
  - exists []. rewrite app_nil_r. repeat split. exact Hlen.
  - destruct (run_index_returns i su) as (c & Hi).
    rewrite (bind_normal _ _ _ _ _ Hi).
    unfold in_range_of. rewrite filter_cons.
    destruct (decide (0 <= i < Z.of_nat (length (tests su)))) as [Hin|Hout].
    + destruct (vec_at_in_range _ _ Hin) as (test & Hat).
      rewrite (run_index_in_range _ _ _ Hat) in Hi. unfold on_ctx in Hi.
      destruct (run_test_slot test (ctx su) (vec_at_Forall _ _ _ _ Hcode Hat) Hlen)
        as (Hs & Hc & _).
      destruct (run_test test (ctx su)) as [r c1]. injection Hi as _ Hi. subst c1.
      cbn [snd] in Hs, Hc.
      destruct (IH (set_ctx c su) Hcode) as (new & Hn & Hl & Hw).
      { cbn. rewrite Hc, Hs, length_app. cbn. lia. }
      cbn [ctx set_ctx] in Hn. rewrite Hs, <- app_assoc in Hn.
      eexists. split; [exact Hn|]. split; [|exact Hw].
      cbn. now rewrite Hl.
    + rewrite (run_index_out_of_range _ _ Hout) in Hi. injection Hi as Hi.
      rewrite <- Hi. exact (IH su Hcode Hlen).
Qed.

(** ** The calls of a run *)

Lemma for_each_run_index_output (l : list Z) (su : TestSuite) :
  tests_are_code su ->
  exists evs, output (ctx (snd (for_each l run_index su))) = output (ctx su) ++ evs.
Proof.
  revert su. induction l as [|i l IH]; intros su Hcode; cbn [for_each].
  - exists []. now rewrite app_nil_r.
  - destruct (run_index_returns i su) as (c & Hi).
    rewrite (bind_normal _ _ _ _ _ Hi).
    destruct (IH (set_ctx c su) Hcode) as (evs2 & ->). cbn [ctx set_ctx].
    destruct (decide (0 <= i < Z.of_nat (length (tests su)))) as [Hin|Hout].
    + destruct (vec_at_in_range _ _ Hin) as (test & Hat).
      rewrite (run_index_in_range _ _ _ Hat) in Hi. unfold on_ctx in Hi.
      destruct (run_test_effect test (ctx su) (vec_at_Forall _ _ _ _ Hcode Hat))
        as (_ & evs1 & Ho).
      destruct (run_test test (ctx su)) as [r c1]. injection Hi as _ Hi. subst c1.
      cbn [snd] in Ho. rewrite Ho, <- app_assoc. eauto.
    + rewrite (run_index_out_of_range _ _ Hout) in Hi. injection Hi as Hi.
      apply (f_equal ctx) in Hi. cbn in Hi. subst c. eauto.
Qed.

(** ** Code written with the assertion functions *)

Lemma count_events_app (p : Event -> bool) (l k : list Event) :
  count_events p (l ++ k) = count_events p l + count_events p k.
Proof. unfold count_events. rewrite List.filter_app, length_app. lia. Qed.

Lemma count_events_cons (p : Event -> bool) (ev : Event) (l : list Event) :
  count_events p (ev :: l) = (if p ev then 1 else 0) + count_events p l.
Proof. unfold count_events. cbn. destruct (p ev); cbn [length]; lia. Qed.

Lemma count_events_nil (p : Event -> bool) : count_events p [] = 0.
Proof. reflexivity. Qed.

Lemma count_events_nonneg (p : Event -> bool) (l : list Event) : 0 <= count_events p l.
Proof. unfold count_events. lia. Qed.

Lemma tallied_refl (s : Ctx) : tallied s s.
Proof.
  exists []. split; [now rewrite app_nil_r|]. split; [reflexivity|]. apply counted_refl.
Qed.

Lemma tallied_trans (s s1 s2 : Ctx) : tallied s s1 -> tallied s1 s2 -> tallied s s2.
Proof.
  intros (evs1 & Ho1 & Ht1 & Hc1) (evs2 & Ho2 & Ht2 & Hc2).
  exists (evs1 ++ evs2). split; [now rewrite Ho2, Ho1, app_assoc|].
  split; [now rewrite forallb_app, Ht1, Ht2|].
  pose proof (counted_trans _ _ _ _ _ Hc1 Hc2) as H.
  rewrite !count_events_app. unfold add_stats in H. cbn in H. exact H.
Qed.

Lemma tallied_pass (ev : Event) (s : Ctx) :
  is_pass_event ev = true -> tallied s (pass_recorded ev s).
Proof.
  intros Hp. exists [ev]. split; [reflexivity|].
  assert (Ht : is_test_event ev = true) by (destruct ev; trivial; discriminate).
  assert (Hf : is_fail_event ev = false) by (destruct ev; trivial; discriminate).
  split; [cbn; now rewrite Ht|].
  unfold count_events. cbn. rewrite Hp, Hf. cbn.
  unfold counted, pass_recorded. cbn. rewrite incr_passes_add.
  repeat split; try lia.
  - apply vec_alter_ext, incr_passes_add.
  - now exists [ev].
Qed.

Lemma tallied_fail (ev : Event) (s : Ctx) :
  is_fail_event ev = true -> tallied s (failure_recorded ev s).
Proof.
  intros Hf. exists [ev]. split; [reflexivity|].
  assert (Ht : is_test_event ev = true) by (destruct ev; trivial; discriminate).
  assert (Hp : is_pass_event ev = false) by (destruct ev; trivial; discriminate).
  split; [cbn; now rewrite Ht|].
  unfold count_events. cbn. rewrite Hp, Hf. cbn.
  unfold counted, failure_recorded. cbn. rewrite incr_fails_add.
  repeat split; try lia.
  - apply vec_alter_ext, incr_fails_add.
  - now exists [ev].
Qed.

Lemma tallied_emit (ev : Event) (s : Ctx) :
  is_test_event ev = true -> is_pass_event ev = false -> is_fail_event ev = false ->
  tallied s (snd (emit ev s)).
Proof.
  intros Ht Hp Hf. exists [ev]. split; [reflexivity|].
  split; [cbn; now rewrite Ht|].
  unfold count_events. cbn. rewrite Hp, Hf. cbn.
  unfold counted. cbn. rewrite add_stats_zero, (vec_alter_id _ _ _ add_stats_zero).
  repeat split; try lia. now exists [ev].
Qed.

Lemma Tallies_ret {A} (a : A) : Tallies (ret a).
Proof. intros s. apply tallied_refl. Qed.

Lemma Tallies_raise {A} (e : exn) : Tallies (raise (A := A) e).
Proof. intros s. apply tallied_refl. Qed.

Lemma Tallies_gets {A} (f : Ctx -> A) : Tallies (gets f).
Proof. intros s. apply tallied_refl. Qed.

Lemma Tallies_bind {A B} (m : M Ctx A) (k : A -> M Ctx B) :
  Tallies m -> (forall a, Tallies (k a)) -> Tallies (bind m k).
Proof.
  intros Hm Hk s. specialize (Hm s). unfold bind.
  destruct (m s) as [[a|e] s1]; cbn in Hm |- *; [|exact Hm].
  exact (tallied_trans _ _ _ Hm (Hk a s1)).
Qed.

Lemma Tallies_try_catch {A B} (body : M Ctx A) (handlers : exn -> option (M Ctx B))
    (rest : A -> M Ctx B) :
  Tallies body -> (forall e h, handlers e = Some h -> Tallies h) ->
  (forall a, Tallies (rest a)) -> Tallies (try_catch body handlers rest).
Proof.
  intros Hb Hh Hr s. specialize (Hb s). unfold try_catch.
  destruct (body s) as [[a|e] s1]; cbn in Hb |- *.
  - exact (tallied_trans _ _ _ Hb (Hr a s1)).
  - destruct (handlers e) as [h|] eqn:E; [|exact Hb].
    exact (tallied_trans _ _ _ Hb (Hh e h E s1)).
Qed.

Lemma Tallies_passed_emit {A} (ev : Event) (k : M Ctx A) :
  is_pass_event ev = true -> Tallies k -> Tallies (passed ;; emit ev ;; k).
Proof.
  intros Hp Hk s.
  change (tallied s (snd (k (pass_recorded ev s)))).
  exact (tallied_trans _ _ _ (tallied_pass ev s Hp) (Hk _)).
Qed.

Lemma Tallies_failed_emit {A} (ev : Event) (k : M Ctx A) :
  is_fail_event ev = true -> Tallies k -> Tallies (failed ;; emit ev ;; k).
Proof.
  intros Hf Hk s.
  change (tallied s (snd (k (failure_recorded ev s)))).
  exact (tallied_trans _ _ _ (tallied_fail ev s Hf) (Hk _)).
Qed.

Lemma Tallies_resolution (p : OnAssertionFailure.t) (e1 e2 : exn) :
  Tallies (m <- gets mode ;;
           match m with
           | Mode.Throw => raise e1
           | Mode.Continue =>
               match p with
               | OnAssertionFailure.Abort => raise e2
               | OnAssertionFailure.Continue => ret Failed
               end
           end).
Proof. intros s. cbn. destruct (mode s); [destruct p|]; apply tallied_refl. Qed.

Section AssertionsTally.

Variables (onFail : OnAssertionFailure.t) (exprstr : string) (line : Z).

Lemma Tallies_reportException (msg : string) (p : OnAssertionFailure.t) :
  Tallies (reportException line exprstr msg p).
Proof.
  unfold reportException. apply Tallies_failed_emit; [reflexivity|].
  apply Tallies_resolution.
Qed.

Lemma Tallies_catch_all (e : exn) (h : M Ctx AssertionResult) :
  catch_all line exprstr e = Some h -> Tallies h.
Proof.
  unfold catch_all. destruct (what e); intros [= <-]; apply Tallies_reportException.
Qed.

Lemma Tallies_check (f : M Ctx bool) :
  Tallies f -> Tallies (check f onFail exprstr line).
Proof.
  intros Hf. unfold check. apply Tallies_try_catch; [exact Hf|apply Tallies_catch_all|].
  intros []; cbn [negb].
  - apply Tallies_passed_emit; [reflexivity|apply Tallies_ret].
  - apply Tallies_failed_emit; [reflexivity|apply Tallies_resolution].
Qed.

Lemma Tallies_equal {T} `{ValueType T} (val : T) (f : M Ctx T) :
  Tallies f -> Tallies (equal val f onFail exprstr line).
Proof.
  intros Hf. unfold equal.
  apply Tallies_try_catch; [|apply Tallies_catch_all|intros; apply Tallies_ret].
  apply Tallies_bind; [exact Hf|]. intros res.
  destruct (negb (value_eq res val)).
  - apply Tallies_failed_emit; [reflexivity|apply Tallies_resolution].
  - apply Tallies_passed_emit; [reflexivity|apply Tallies_ret].
Qed.

Lemma Tallies_throwsType (ThrownType : exn -> bool) (f : M Ctx unit) :
  Tallies f -> Tallies (throwsType ThrownType f onFail exprstr line).
Proof.
  intros Hf. unfold throwsType. apply Tallies_try_catch; [exact Hf| |].
  - intros e h. destruct (ThrownType e); [|destruct (what e)]; intros [= <-];
      try apply Tallies_reportException.
    apply Tallies_passed_emit; [reflexivity|apply Tallies_ret].
  - intros _. apply Tallies_failed_emit; [reflexivity|apply Tallies_resolution].
Qed.

Lemma Tallies_throws (f : M Ctx unit) :
  Tallies f -> Tallies (throws f onFail exprstr line).
Proof.
  intros Hf. unfold throws. apply Tallies_try_catch; [exact Hf| |].
  - intros e h [= <-]. apply Tallies_passed_emit; [reflexivity|apply Tallies_ret].
  - intros _. apply Tallies_failed_emit; [reflexivity|apply Tallies_resolution].
Qed.

Lemma Tallies_generateFailure : Tallies (generateFailure exprstr onFail line).
Proof.
  unfold generateFailure. apply Tallies_failed_emit; [reflexivity|apply Tallies_resolution].
Qed.

End AssertionsTally.

Lemma MacroCode_Tallies {A} (m : M Ctx A) : MacroCode m -> Tallies m.
Proof.
  induction 1.
  - apply Tallies_ret.
  - apply Tallies_raise.
  - apply Tallies_gets.
  - now apply Tallies_bind.
  - now apply Tallies_try_catch.
  - now apply Tallies_check.
  - now apply Tallies_equal.
  - now apply Tallies_throwsType.
  - now apply Tallies_throws.
  - apply Tallies_generateFailure.
  - intros s. now apply tallied_emit.
  - intros s. now apply tallied_emit.
Qed.

Lemma MacroCode_TestCode {A} (m : M Ctx A) : MacroCode m -> TestCode m.
Proof.
  induction 1.
  - apply tc_ret.
  - apply tc_raise.
  - apply tc_gets.
  - now apply tc_bind.
  - now apply tc_try_catch.
  - now apply TestCode_check.
  - now apply TestCode_equal.
  - now apply TestCode_throwsType.
  - now apply TestCode_throws.
  - apply TestCode_generateFailure.
  - apply TestCode_LT_MESSAGE.
  - apply TestCode_LT_PRINT_EXPR.
Qed.

(** ** The report of a run of tests written that way *)

Lemma footer_stats_app (l k : list Event) :
  footer_stats (l ++ k) = footer_stats l ++ footer_stats k.
Proof. apply omap_app. Qed.

Lemma header_tests_app (l k : list Event) :
  header_tests (l ++ k) = header_tests l ++ header_tests k.
Proof. apply omap_app. Qed.

Lemma test_events_no_lifecycle (evs : list Event) :
  forallb is_test_event evs = true -> footer_stats evs = [] /\ header_tests evs = [].
Proof.
  induction evs as [|ev evs IH]; [now split|].
  cbn [forallb]. intros [Hev Hrest]%andb_prop. destruct (IH Hrest) as (IH1 & IH2).
  unfold footer_stats, header_tests in *. cbn.
  rewrite IH1, IH2. destruct ev; try discriminate Hev; now split.
Qed.

(** A turn of the loop on a test written with the assertion functions
    keeps the report in step with the stats. *)
Lemma run_test_report (c0 : Z) (test : Test) (s : Ctx) :
  MacroCode (func test) ->
  report_inv c0 s ->
  report_inv c0 (snd (run_test test s)) /\
  header_tests (output (snd (run_test test s))) = header_tests (output s) ++ [view test].
Proof.
  intros Hmc (Hinv & Hp & Hf & Hfoot).
  pose proof (MacroCode_TestCode _ Hmc) as Htc.
  pose proof (run_test_inv c0 test s Htc Hinv) as Hinv'.
  destruct Hinv as (Hc0 & Hlen & Htot).
  destruct (run_test_slot test s Htc Hlen) as (Hslot & _ & _).
  destruct (MacroCode_Tallies _ Hmc (entry test s)) as (evs & Ho & Ht & Hcnt).
  destruct Hcnt as (_ & _ & _ & _ & Htot1 & _).
  destruct (test_events_no_lifecycle evs Ht) as (Hnf & Hnh).
  assert (Hoe : output (entry test s) = output s ++ [formatTestHeader (view test)])
    by reflexivity.
  assert (Hte : totalStats_ (entry test s) = totalStats_ s) by reflexivity.
  revert Hinv' Hslot. rewrite run_test_eq.
  assert (Hslot' : forall s1 o n,
            stats_ (set_output o (set_clock_reads n s1))
              = stats_ s ++ [currentTestStats (set_output o (set_clock_reads n s1))] ->
            stats_ s1 = stats_ s ++ [currentTestStats s1]) by (intros s1 o n H; exact H).
  destruct (func test (entry test s)) as [[[]|e] s1]; cbn [snd] in *; intros Hinv' Hslot;
    (split; [split; [exact Hinv'|split; [|split]]|]);
    cbn [output set_output totalStats_ set_clock_reads];
    rewrite ?Ho, ?Hoe, ?count_events_app, ?footer_stats_app, ?header_tests_app,
      ?Hnf, ?Hnh, ?Hp, ?Hf, ?Hfoot, ?Htot1, ?Hte, ?count_events_cons, ?count_events_nil;
    cbn [is_pass_event is_fail_event];
    try (unfold add_stats; cbn [passes fails]; lia);
    try (unfold header_tests; cbn [omap list_omap]; now rewrite !app_nil_r).
  - unfold recorded_since. cbn [stats_ set_output set_clock_reads].
    rewrite (Hslot' _ _ _ Hslot) at 1. rewrite drop_app_le by lia.
    unfold footer_stats. cbn [omap list_omap]. now rewrite !app_nil_r.
  - assert (H1 : stats_ s1 = stats_ s ++ [currentTestStats s1]) by exact Hslot.
    unfold recorded_since. cbn [stats_ set_output].
    rewrite H1 at 1. rewrite drop_app_le by lia.
    unfold footer_stats. cbn [omap list_omap]. now rewrite !app_nil_r.
Qed.

Lemma for_each_run_index_report (c0 : Z) (l : list Z) (su : TestSuite) :
  tests_are_macro_code su ->
  report_inv c0 (ctx su) ->
  report_inv c0 (ctx (snd (for_each l run_index su))) /\
  header_tests (output (ctx (snd (for_each l run_index su))))
    = header_tests (output (ctx su)) ++ requested_tests su l.
Proof.
  revert su. induction l as [|i l IH]; intros su Hmc Hinv; cbn [for_each].
  - split; [exact Hinv|]. unfold requested_tests. cbn. now rewrite app_nil_r.
  - destruct (run_index_returns i su) as (c & Hi).
    rewrite (bind_normal _ _ _ _ _ Hi).
    destruct (decide (0 <= i < Z.of_nat (length (tests su)))) as [Hin|Hout].
    + destruct (vec_at_in_range _ _ Hin) as (test & Hat).
      rewrite (run_index_in_range _ _ _ Hat) in Hi. unfold on_ctx in Hi.
      destruct (run_test_report c0 test (ctx su) (vec_at_Forall _ _ _ _ Hmc Hat) Hinv)
        as (Hinv1 & Hh1).
      destruct (run_test test (ctx su)) as [r c1]. injection Hi as _ Hi. subst c1.
      cbn [snd] in Hinv1, Hh1.
      destruct (IH (set_ctx c su) Hmc Hinv1) as (Hinv2 & Hh2).
      split; [exact Hinv2|]. rewrite Hh2. cbn [ctx set_ctx]. rewrite Hh1.
      unfold requested_tests. cbn [omap list_omap tests set_ctx]. rewrite Hat. cbn.
      now rewrite <- app_assoc.
    + rewrite (run_index_out_of_range _ _ Hout) in Hi. injection Hi as Hi.
      rewrite <- Hi. destruct (IH su Hmc Hinv) as (Hinv2 & Hh2).
      split; [exact Hinv2|]. rewrite Hh2.
      unfold requested_tests. cbn [omap list_omap].
      assert (Hnone : vec_at (tests su) i = None).
      { destruct (vec_at (tests su) i) eqn:E; [|reflexivity].
        destruct Hout. exact (vec_at_Some _ _ _ E). }
      now rewrite Hnone.
Qed.

(** The report of a whole run. *)
Lemma runSome_report (testIdx : list Z) (m : Mode.t) (su : TestSuite) :
  Reachable su ->
  tests_are_macro_code su ->
  let s1 := ctx (snd (runSome testIdx m su)) in
  report_inv (counter (ctx su)) s1 /\
  header_tests (output s1) = requested_tests su testIdx /\
  last (output s1) = Some (formatTestSuiteEnd (suiteName su) (totalTestStats s1)).
Proof.
  intros Hreach Hmc.
  destruct (Reachable_wf su Hreach) as (_ & _ & H0 & Hlen).
  destruct (run_started_inv m su H0 Hlen) as (Hinv & _ & _).
  assert (Hstart : report_inv (counter (ctx su)) (ctx (run_started m su))).
  { split; [exact Hinv|]. repeat split.
    unfold recorded_since. cbn. symmetry. apply drop_ge. lia. }
  destruct (for_each_run_index_report _ testIdx (run_started m su) Hmc Hstart)
    as ((Hi & Hp & Hf & Hfoot) & Hh).
  cbv zeta. rewrite runSome_eq.
  destruct (for_each_run_index_returns testIdx (run_started m su)) as (c & Hr).
  rewrite Hr in Hi, Hp, Hf, Hfoot, Hh |- *. cbn [snd ctx set_ctx] in *.
  split; [split; [exact Hi|]|split].
  - cbn. rewrite !count_events_app, !count_events_cons, !count_events_nil, footer_stats_app.
    cbn. rewrite app_nil_r. repeat split; try lia. exact Hfoot.
  - cbn. rewrite header_tests_app, Hh. cbn. now rewrite app_nil_r.
  - cbn. now rewrite last_snoc.
Qed.

(** The example program is written that way. *)
Ltac mc_example :=
  repeat first
    [ apply mc_check | apply mc_equal | apply mc_throwsType | apply mc_throws
    | apply mc_generateFailure | apply mc_LT_MESSAGE | apply mc_LT_PRINT_EXPR
    | apply mc_ret | apply mc_raise
    | apply mc_bind; [|intros ?] ].

Lemma Example_suite_macro_code : tests_are_macro_code Example.suite.
Proof.
  unfold tests_are_macro_code, Example.suite, addTest, newTestSuite. cbn.
  repeat (apply Forall_cons; split); try (apply Forall_nil; exact I); cbn [func].
  - unfold Example.tests_that_pass. mc_example.
  - unfold Example.tests_that_fail. mc_example.
  - unfold Example.aborted_early. mc_example.
  - unfold Example.throw_outside. mc_example.
Qed.

(** ** The requests of [run] *)



(** ** Assertions among the statements of a test function *)

(** What an assertion raises ends the code that evaluates it as a statement
    of its own, in the state the assertion left: nothing after it is run. *)
Lemma evaluated_in_raised (a : Assertion) {A} (body : M Ctx A) (s s1 : Ctx) (e : exn)
    (s2 : Ctx) :
  evaluated_in a body s s1 -> evaluate a s1 = (Raised e, s2) -> body s = (Raised e, s2).
Proof.
  induction 1 as [s|A B m k s s1 H IH|A B m k s x s1 s3 Hm H IH]; intros He.
  - exact He.
  - apply bind_raised. exact (IH He).
  - rewrite (bind_normal _ _ _ _ _ Hm). exact (IH He).
Qed.

(** The counters after a recorded failure and after a recorded pass, member
    by member. *)
Lemma failure_recorded_counts (ev : Event) (s : Ctx) :
  in_test s ->
  fails (totalStats_ (failure_recorded ev s)) = fails (totalStats_ s) + 1 /\
  passes (totalStats_ (failure_recorded ev s)) = passes (totalStats_ s) /\
  fails (currentTestStats (failure_recorded ev s)) = fails (currentTestStats s) + 1 /\
  passes (currentTestStats (failure_recorded ev s)) = passes (currentTestStats s).
Proof.
  intros Hin. rewrite failure_recorded_total, failure_recorded_current by exact Hin.
  repeat split.
Qed.

Lemma pass_recorded_counts (ev : Event) (s : Ctx) :
  in_test s ->
  passes (totalStats_ (pass_recorded ev s)) = passes (totalStats_ s) + 1 /\
  fails (totalStats_ (pass_recorded ev s)) = fails (totalStats_ s) /\
  passes (currentTestStats (pass_recorded ev s)) = passes (currentTestStats s) + 1 /\
  fails (currentTestStats (pass_recorded ev s)) = fails (currentTestStats s).
Proof.
  intros Hin. rewrite pass_recorded_total, pass_recorded_current by exact Hin.
  repeat split.
Qed.

(** ** Requested indices and the tests they run *)



(** A run records one stats slot for each requested index in range. *)
Lemma runSome_recorded_length (testIdx : list Z) (m : Mode.t) (su : TestSuite) :
  Reachable su ->
  length (recorded_since (counter (ctx su)) (ctx (snd (runSome testIdx m su))))
    = length (in_range_of su testIdx).
Proof.
  intros Hreach. destruct (Reachable_wf su Hreach) as (Hcode & _ & H0 & Hlen).
  destruct (runSome_inv testIdx m su Hcode H0 Hlen) as (_ & Hl & _).
  pose proof (runSome_counter testIdx m su Hcode) as Hc.
  unfold recorded_since. rewrite length_drop. lia.
Qed.

(** * The properties of the specification *)

(** *** C1 *)




(** *** C2 *)

(** C2, as stated, fails for an assertion evaluated inside the callable of
    [throws]: in the second test of the nested example the callable of
    [throwsType] raises an [int], which is not what the assertion looks for;
    the failure is counted and reported and the assertion raises
    [TestAbortException] although its policy is [Continue], but the
    enclosing [throws] catches it and counts a pass: the test goes on, and
    the footer gets a test that is not marked aborted. *)
Lemma unexpected_exception_inside_throws_counterexample :
  let a := ThrowsType Example.is_out_of_range (raise (NonStdThrow "int"))
             OnAssertionFailure.Continue "throw 4" 20 in
  let test := mkTest "nested.cpp" "Unexpected exception inside a throw assertion"
                Nested.error_inside_throws 2 false None in
  let s1 := entry test (ctx (run_started Mode.Continue Nested.suite)) in
  let out := output (ctx (snd (runSome [1] Mode.Continue Nested.suite))) in
  vec_at (tests Nested.suite) 1 = Some test /\
  erroring a s1 (NonStdThrow "int") s1 /\
  fst (evaluate a s1) = Raised (TestAbortException 20 "Caught in assertion") /\
  out =
    [formatTestSuiteStart "Nested assertions" (mkTestStats 0 0);
     formatTestHeader
       (mkTest "nested.cpp" "Unexpected exception inside a throw assertion" tt 2 false None);
     formatUnexpectedException 20 "throw 4" "Uncaught exception in exception assertion";
     formatPassedThrow 20 "LT_EXCEPT(throw 4, std::out_of_range)";
     formatPassedCheck 21 "true";
     formatTestFooter
       (mkTest "nested.cpp" "Unexpected exception inside a throw assertion" tt 2 false
          (Some 10))
       (mkTestStats 2 1);
     formatTestSuiteEnd "Nested assertions" (mkTestStats 2 1)] /\
  (forall line reason, ~ In (formatAbortedTest line reason) out).
Proof.
  cbv zeta. split; [reflexivity|]. split; [split; vm_compute; reflexivity|].
  split; [vm_compute; reflexivity|].
  match goal with |- ?out = ?l /\ _ => assert (Hout : out = l) by (vm_compute; reflexivity) end.
  split; [exact Hout|]. rewrite Hout.
  intros line reason Hin. cbn [In] in Hin.
  repeat (destruct Hin as [Hin|Hin]; [discriminate Hin|]). exact Hin.
Qed.

(** C2, amended.  When the callable of [check], [equal] or [throwsType]
    raises something the assertion is not looking for, whatever the policy
    given: the fails of the total and of the current test go up by one and
    the passes stay, the formatter gets [formatUnexpectedException] with the
    message of the exception or a placeholder, and the assertion raises
    [TestAbortException] with its own line in mode [Continue],
    [AssertionFailureException] in mode [Throw].  When a test function
    evaluates the assertion as a statement of its own (not inside a try
    block, not inside the callable of another assertion), the function
    ends there, and the loop turn reports the abort and sends the footer
    with the test marked aborted; in mode [Continue] the abort is reported
    with the line of the assertion. *)
Theorem unexpected_exception_aborts_test :
  forall (a : Assertion) (s1 : Ctx) (e : exn) (s2 : Ctx),
    erroring a s1 e s2 ->
    in_test s2 ->
    exists (msg : string) (signal : exn) (s3 : Ctx),
      evaluate a s1 = (Raised signal, s3) /\
      (forall m, what e = Some m -> msg = m) /\
      (what e = None -> msg = "N/A" \/ msg = "Uncaught exception in exception assertion") /\
      output s3 = output s2 ++ [formatUnexpectedException (line_of a) (text_of a) msg] /\
      fails (totalStats_ s3) = fails (totalStats_ s2) + 1 /\
      passes (totalStats_ s3) = passes (totalStats_ s2) /\
      fails (currentTestStats s3) = fails (currentTestStats s2) + 1 /\
      passes (currentTestStats s3) = passes (currentTestStats s2) /\
      signal =
        match mode s2 with
        | Mode.Continue => TestAbortException (line_of a) "Caught in assertion"
        | Mode.Throw => AssertionFailureException ("Unexpected exception in: " +:+ text_of a)
        end /\
      forall (test : Test) (s : Ctx),
        evaluated_in a (func test) (entry test s) s1 ->
        func test (entry test s) = (Raised signal, s3) /\
        run_test test s =
          (Normal tt,
           set_output
             (output s3 ++
              [formatAbortedTest (fst (abort_report signal)) (snd (abort_report signal));
               formatTestFooter (aborted_view test) (currentTestStats s3)])
             s3) /\
        (mode s2 = Mode.Continue ->
         abort_report signal = (line_of a, "Caught in assertion")).
Proof.
  intros a s1 e s2 He Hin.
  destruct (erroring_evaluate a s1 e s2 He) as (msg & Hsome & Hnone & Hev).
  destruct (failure_recorded_counts
              (formatUnexpectedException (line_of a) (text_of a) msg) s2 Hin)
    as (Hft & Hpt & Hfc & Hpc).
  eexists msg, _, _. split; [exact Hev|].
  split; [exact Hsome|]. split; [exact Hnone|].
  split; [apply failure_recorded_output|].
  split; [exact Hft|]. split; [exact Hpt|]. split; [exact Hfc|]. split; [exact Hpc|].
  split; [reflexivity|].
  intros test s Hbody.
  pose proof (evaluated_in_raised _ _ _ _ _ _ Hbody Hev) as Hrun.
  split; [exact Hrun|]. split; [exact (run_test_raised _ _ _ _ Hrun)|].
  now intros ->.
Qed.

Lemma unexpected_exception_aborts_test_witness :
  let e := StdException "std::logic_error" "ERROR!" in
  let a := ThrowsType Example.is_out_of_range (raise e) OnAssertionFailure.Continue
             "throw std::logic_error(msg)" 145 in
  let test := mkTest "test.cpp" "Tests that fail" Example.tests_that_fail 2 false None in
  let s := ctx (run_started Mode.Continue Example.suite) in
  let sA := snd (check (ret false) OnAssertionFailure.Continue "1 > 2" 142 (entry test s)) in
  let sB := snd (equal 3 (ret 2) OnAssertionFailure.Continue "1 + 1" 143 sA) in
  let s1 := snd (throws (ret tt) OnAssertionFailure.Continue "1" 144 sB) in
  erroring a s1 e s1 /\ in_test s1 /\
  evaluated_in a (func test) (entry test s) s1 /\
  exists s3,
    func test (entry test s) = (Raised (TestAbortException 145 "Caught in assertion"), s3) /\
    output s3 = output s1 ++ [formatUnexpectedException 145 "throw std::logic_error(msg)"
                                "ERROR!"] /\
    fails (currentTestStats s3) = fails (currentTestStats s1) + 1 /\
    run_test test s =
      (Normal tt,
       set_output
         (output s3 ++
          [formatAbortedTest 145 "Caught in assertion";
           formatTestFooter (aborted_view test) (currentTestStats s3)])
         s3).
Proof.
  intros e a test s sA sB s1.
  assert (He : erroring a s1 e s1) by (split; reflexivity).
  assert (Hin : in_test s1) by (unfold in_test; vm_compute; split; [discriminate|reflexivity]).
  assert (Hm : mode s1 = Mode.Continue) by (vm_compute; reflexivity).
  assert (Hev : evaluated_in a (func test) (entry test s) s1).
  { apply (ev_later a _ _ _ Failed sA); [vm_compute; reflexivity|].
    apply (ev_later a _ _ _ Failed sB); [vm_compute; reflexivity|].
    apply (ev_later a _ _ _ Failed s1); [vm_compute; reflexivity|].
    apply ev_first. exact (ev_here a s1). }
  split; [exact He|]. split; [exact Hin|]. split; [exact Hev|].
  destruct (unexpected_exception_aborts_test a s1 e s1 He Hin)
    as (msg & signal & s3 & _ & Hmsg & _ & Hout & _ & _ & Hfc & _ & Hsig & Hbody).
  destruct (Hbody test s Hev) as (Hrun & Hturn & Hrep).
  rewrite (Hmsg "ERROR!" eq_refl) in Hout.
  rewrite Hm in Hsig. rewrite (Hrep Hm) in Hturn. subst signal. exists s3.
  split; [exact Hrun|]. split; [exact Hout|]. split; [exact Hfc|exact Hturn].
Defined.

(** *** C3 *)

(** C3, as stated, fails on the example program run in mode [Throw]: the
    first failing assertion of "Tests that fail" raises
    [AssertionFailureException], yet [run] returns normally: the exception
    is caught by the loop, reported with line [0], and the tests after it
    are run. *)
Lemma throw_mode_signal_escapes_run_counterexample :
  let su1 := snd (run Mode.Throw Example.suite) in
  fst (check (ret false) OnAssertionFailure.Continue "1 > 2" 142
         (set_mode Mode.Throw (ctx Example.suite)))
    = Raised (AssertionFailureException "Broken assertion in: 1 > 2") /\
  fst (run Mode.Throw Example.suite) = Normal tt /\
  ~ (exists e, fst (run Mode.Throw Example.suite) = Raised e) /\
  In (formatAbortedTest 0 "Uncaught exception: Broken assertion in: 1 > 2")
     (output (ctx su1)) /\
  counter (ctx su1) = 3.
Proof.
  cbv zeta. split; [reflexivity|]. split; [reflexivity|].
  split; [intros [e He]; vm_compute in He; discriminate|].
  split; [vm_compute; tauto|reflexivity].
Qed.

(** C3, amended.  In mode [Throw] an assertion of any kind that fails or
    errors raises [AssertionFailureException], whatever its policy.  The
    exception does not leave [runSome], which returns normally for every
    suite and every request.  When the function of the test at a requested
    position evaluates the assertion as a statement of its own (not inside a
    try block, not inside the callable of another assertion), the
    exception ends the test function; the loop of [runSome] catches it as
    a [std::exception], marks the copy of the test aborted, calls
    [formatAbortedTest] with line [0] and the reason "Uncaught exception: "
    followed by the message, sends the footer, and goes on with the
    indices that remain. *)
Theorem throw_mode_signal_is_caught_by_run :
  forall (a : Assertion) (s1 s2 : Ctx),
    mode s2 = Mode.Throw ->
    failing a s1 s2 \/ (exists e, erroring a s1 e s2) ->
    exists (msg : string) (s3 : Ctx),
      evaluate a s1 = (Raised (AssertionFailureException msg), s3) /\
      (forall (su : TestSuite) (i : Z) (test : Test),
         vec_at (tests su) i = Some test ->
         evaluated_in a (func test) (entry test (ctx su)) s1 ->
         let su1 :=
           set_ctx
             (set_output
                (output s3 ++
                 [formatAbortedTest 0 ("Uncaught exception: " +:+ msg);
                  formatTestFooter (aborted_view test) (currentTestStats s3)])
                s3)
             su in
         func test (entry test (ctx su)) = (Raised (AssertionFailureException msg), s3) /\
         run_index i su = (Normal tt, su1) /\
         forall rest : list Z,
           for_each (i :: rest) run_index su = for_each rest run_index su1) /\
      (forall (testIdx : list Z) (m : Mode.t) (su : TestSuite),
         exists su1, runSome testIdx m su = (Normal tt, su1)).
Proof.
  intros a s1 s2 Hm Hcase.
  assert (exists msg s3, evaluate a s1 = (Raised (AssertionFailureException msg), s3))
    as (msg & s3 & Hev).
  { destruct Hcase as [Hf|(e & He)].
    - destruct (failing_evaluate a s1 s2 Hf) as (ev & s3 & r1 & r2 & _ & Hev).
      rewrite Hm in Hev. destruct a; eauto.
    - destruct (erroring_evaluate a s1 e s2 He) as (txt & _ & _ & Hev).
      rewrite Hm in Hev. eauto. }
  exists msg, s3. split; [exact Hev|]. split.
  - intros su i test Hat Hbody. cbv zeta.
    pose proof (evaluated_in_raised _ _ _ _ _ _ Hbody Hev) as Hrun.
    assert (Hturn : run_index i su =
      (Normal tt,
       set_ctx
         (set_output
            (output s3 ++
             [formatAbortedTest 0 ("Uncaught exception: " +:+ msg);
              formatTestFooter (aborted_view test) (currentTestStats s3)])
            s3)
         su)).
    { rewrite (run_index_in_range _ _ _ Hat). unfold on_ctx.
      now rewrite (run_test_raised _ _ _ _ Hrun). }
    split; [exact Hrun|]. split; [exact Hturn|].
    intros rest. cbn [for_each]. now rewrite (bind_normal _ _ _ _ _ Hturn).
  - intros testIdx m su. destruct (runSome_returns testIdx m su) as (su1 & H & _). eauto.
Qed.

Lemma throw_mode_signal_is_caught_by_run_witness :
  let a := Check (ret false) OnAssertionFailure.Continue "1 > 2" 142 in
  let su := run_started Mode.Throw Example.suite in
  let test := mkTest "test.cpp" "Tests that fail" Example.tests_that_fail 2 false None in
  let s1 := entry test (ctx su) in
  mode s1 = Mode.Throw /\ failing a s1 s1 /\
  vec_at (tests su) 1 = Some test /\
  evaluated_in a (func test) (entry test (ctx su)) s1 /\
  exists msg s3 su1,
    evaluate a s1 = (Raised (AssertionFailureException msg), s3) /\
    run_index 1 su = (Normal tt, su1) /\
    for_each [1; 2] run_index su = for_each [2] run_index su1.
Proof.
  intros a su test s1.
  assert (Hm : mode s1 = Mode.Throw) by reflexivity.
  assert (Hf : failing a s1 s1) by reflexivity.
  assert (Hat : vec_at (tests su) 1 = Some test) by reflexivity.
  assert (Hev : evaluated_in a (func test) (entry test (ctx su)) s1)
    by (apply ev_first, ev_here).
  split; [exact Hm|]. split; [exact Hf|]. split; [exact Hat|]. split; [exact Hev|].
  destruct (throw_mode_signal_is_caught_by_run a s1 s1 Hm (or_introl Hf))
    as (msg & s3 & Hraise & Hloop & _).
  destruct (Hloop su 1 test Hat Hev) as (_ & Hturn & Hrest).
  eexists msg, s3, _. split; [exact Hraise|]. split; [exact Hturn|exact (Hrest [2])].
Defined.

(** *** C4 *)

(** C4.  For a suite of the program and a run of it by [runSome]: the run
    starts with a zero total and nothing recorded; after any number of the
    requested tests, inside a test after any piece of test code (however it
    ends) and after any assertion that follows it, and when [runSome]
    returns, the total stats are the elementwise sum of the per-test stats
    recorded since the start of the run, one for each requested index in
    range.  Each [passed()] adds one to the passes of the total and of the
    current test, each [failed()] adds one to the fails of both.  An
    assertion that passes adds one to the passes of both; an assertion that
    fails or errors adds the same number to the fails of both: one, or two
    for an [equal] whose failure is resolved by a throw. *)
Theorem total_stats_equal_sum_of_test_stats :
  forall (su : TestSuite) (testIdx : list Z) (m : Mode.t),
    Reachable su ->
    let c0 := counter (ctx su) in
    let total_is_sum (s : Ctx) := totalStats_ s = stats_sum (recorded_since c0 s) in
    let counts (p f : Z) (s s' : Ctx) :=
      passes (totalStats_ s') = passes (totalStats_ s) + p /\
      fails (totalStats_ s') = fails (totalStats_ s) + f /\
      passes (currentTestStats s') = passes (currentTestStats s) + p /\
      fails (currentTestStats s') = fails (currentTestStats s) + f in
    totalStats_ (ctx (run_started m su)) = mkTestStats 0 0 /\
    recorded_since c0 (ctx (run_started m su)) = [] /\
    (forall done rest : list Z,
       testIdx = done ++ rest ->
       total_is_sum (ctx (snd (for_each done run_index (run_started m su))))) /\
    (forall (done : list Z) (i : Z) (rest : list Z) (test : Test)
            (A : Type) (code : M Ctx A),
       testIdx = done ++ i :: rest ->
       vec_at (tests su) i = Some test ->
       TestCode code ->
       total_is_sum
         (snd (code (entry test (ctx (snd (for_each done run_index (run_started m su)))))))) /\
    total_is_sum (ctx (snd (runSome testIdx m su))) /\
    length (recorded_since c0 (ctx (snd (runSome testIdx m su))))
      = length (in_range_of su testIdx) /\
    (forall s : Ctx,
       in_test s -> counts 1 0 s (snd (passed s)) /\ counts 0 1 s (snd (failed s))) /\
    (forall (a : Assertion) (s s1 : Ctx),
       in_test s1 ->
       (passing a s s1 -> counts 1 0 s1 (snd (evaluate a s))) /\
       (failing a s s1 -> counts 0 (failures_counted a (mode s1)) s1 (snd (evaluate a s))) /\
       (forall e, erroring a s e s1 -> counts 0 1 s1 (snd (evaluate a s)))) /\
    (forall (done : list Z) (i : Z) (rest : list Z) (test : Test)
            (code : M Ctx unit) (a : Assertion),
       testIdx = done ++ i :: rest ->
       vec_at (tests su) i = Some test ->
       TestCode code ->
       callable_is_code a ->
       total_is_sum
         (snd ((code ;; evaluate a)
                 (entry test (ctx (snd (for_each done run_index (run_started m su)))))))).
Proof.
  intros su testIdx m Hreach c0 total_is_sum counts.
  destruct (Reachable_wf su Hreach) as (Hcode & _ & H0 & Hlen).
  destruct (run_started_inv m su H0 Hlen) as (Hinv & Hzero & Ht).
  assert (Hcode' : tests_are_code (run_started m su)) by (unfold tests_are_code; now rewrite Ht).
  assert (Hinside : forall (done : list Z) (test : Test) (A : Type) (code : M Ctx A),
            TestCode code ->
            total_is_sum
              (snd (code (entry test
                            (ctx (snd (for_each done run_index (run_started m su)))))))).
  { intros done test A code Htc.
    destruct (for_each_run_index_inv _ done _ Hcode' Hinv) as (H1 & _).
    destruct (run_inv_entry _ test _ H1) as (Hent & Hlt).
    destruct (TestCode_counted code Htc (entry test (ctx (snd (for_each done run_index
                (run_started m su)))))) as (d & Hd).
    destruct (run_inv_counted _ _ _ _ Hent Hlt Hd) as (_ & _ & H). exact H. }
  split; [exact Hzero|]. split.
  { unfold recorded_since, c0. cbn. apply drop_ge. lia. }
  split.
  { intros done rest _.
    destruct (for_each_run_index_inv _ done _ Hcode' Hinv) as ((_ & _ & H) & _). exact H. }
  split; [intros done i rest test A code _ _ Htc; now apply Hinside|].
  split.
  { destruct (runSome_inv testIdx m su Hcode H0 Hlen) as (_ & _ & H). exact H. }
  split; [exact (runSome_recorded_length testIdx m su Hreach)|].
  split.
  { intros s Hin. unfold counts. split.
    - destruct (pass_recorded_counts (formatPassedCheck 0 "e") s Hin) as (H1 & H2 & H3 & H4).
      assert (Et : totalStats_ (snd (passed s))
                   = totalStats_ (pass_recorded (formatPassedCheck 0 "e") s)) by reflexivity.
      assert (Ec : currentTestStats (snd (passed s))
                   = currentTestStats (pass_recorded (formatPassedCheck 0 "e") s))
        by reflexivity.
      rewrite Et, Ec, H1, H2, H3, H4. lia.
    - destruct (failure_recorded_counts (formatFailedCheck 0 "e") s Hin) as (H1 & H2 & H3 & H4).
      assert (Et : totalStats_ (snd (failed s))
                   = totalStats_ (failure_recorded (formatFailedCheck 0 "e") s)) by reflexivity.
      assert (Ec : currentTestStats (snd (failed s))
                   = currentTestStats (failure_recorded (formatFailedCheck 0 "e") s))
        by reflexivity.
      rewrite Et, Ec, H1, H2, H3, H4. lia. }
  split.
  { intros a s s1 Hin. unfold counts. split; [|split].
    - intros Hp. destruct (passing_evaluate a s s1 Hp) as (ev & ->). cbn [snd].
      destruct (pass_recorded_counts ev s1 Hin) as (H1 & H2 & H3 & H4).
      rewrite H1, H2, H3, H4. lia.
    - intros Hf. destruct (failing_evaluate a s s1 Hf) as (ev & s2 & r1 & r2 & -> & Hev).
      destruct (failure_recorded_counts ev s1 Hin) as (H1 & H2 & H3 & H4).
      pose proof (failure_recorded_in_test ev s1 Hin) as Hin2.
      rewrite Hev.
      destruct (mode s1), (policy a) eqn:Hp; destruct a; cbn [policy] in Hp; subst;
        cbn [snd failures_counted];
        rewrite ?(proj1 (failure_recorded_counts _ _ Hin2)),
          ?(proj1 (proj2 (failure_recorded_counts _ _ Hin2))),
          ?(proj1 (proj2 (proj2 (failure_recorded_counts _ _ Hin2)))),
          ?(proj2 (proj2 (proj2 (failure_recorded_counts _ _ Hin2))));
        rewrite H1, H2, H3, H4; lia.
    - intros e He. destruct (erroring_evaluate a s e s1 He) as (msg & _ & _ & ->). cbn [snd].
      destruct (failure_recorded_counts
                  (formatUnexpectedException (line_of a) (text_of a) msg) s1 Hin)
        as (H1 & H2 & H3 & H4).
      rewrite H1, H2, H3, H4. lia. }
  intros done i rest test code a _ _ Htc Ha. apply Hinside.
  apply tc_bind; [exact Htc|]. intros _. apply TestCode_evaluate. exact Ha.
Qed.

Lemma total_stats_equal_sum_of_test_stats_witness :
  let a := Equal 5 (ret 6) OnAssertionFailure.Abort "f()" 10 in
  let s := mkCtx [] Mode.Continue 0 [mkTestStats 3 1] (mkTestStats 5 2) (fun _ => 0) 0%nat in
  Reachable Example.suite /\
  totalStats_ (ctx (snd (runSome [1; 0; 7; 1] Mode.Continue Example.suite)))
    = stats_sum (recorded_since (-1) (ctx (snd (runSome [1; 0; 7; 1] Mode.Continue
                                                  Example.suite)))) /\
  in_test s /\ failing a s s /\
  fails (totalStats_ (snd (evaluate a s))) = 2 + 2 /\
  fails (currentTestStats (snd (evaluate a s))) = 1 + 2.
Proof.
  intros a s.
  assert (Hin : in_test s) by (unfold in_test; cbn; lia).
  assert (Hf : failing a s s) by (exists 6; split; reflexivity).
  pose proof (total_stats_equal_sum_of_test_stats Example.suite [1; 0; 7; 1] Mode.Continue
                Example_suite_Reachable) as H.
  cbv zeta in H. destruct H as (_ & _ & _ & _ & Hsum & _ & _ & Hassert & _).
  destruct (Hassert a s s Hin) as (_ & Hfail & _).
  destruct (Hfail Hf) as (_ & Hft & _ & Hfc).
  split; [exact Example_suite_Reachable|]. split; [exact Hsum|].
  split; [exact Hin|]. split; [exact Hf|]. split; [exact Hft|exact Hfc].
Defined.

(** *** C5 *)




(** *** C6 *)

(** C6.  When the function of the test at a requested position raises
    something that is not the abort signal of the assertions, the turn of
    the loop for that position returns normally: the formatter gets
    [formatAbortedTest] with line [0] and an "uncaught exception" reason,
    then the footer with a test marked aborted; the loop goes on with the
    indices that remain, and [runSome] itself returns normally. *)
Theorem uncaught_exception_is_contained :
  forall (su : TestSuite) (i : Z) (test : Test) (e : exn) (s1 : Ctx),
    vec_at (tests su) i = Some test ->
    func test (entry test (ctx su)) = (Raised e, s1) ->
    (forall line msg, e <> TestAbortException line msg) ->
    exists (reason : string),
      (forall m, what e = Some m -> reason = "Uncaught exception: " +:+ m) /\
      (what e = None -> reason = "Uncaught exception outside of assertion.") /\
      let su1 :=
        set_ctx
          (set_output
             (output s1 ++
              [formatAbortedTest 0 reason;
               formatTestFooter (view (set_aborted true test)) (currentTestStats s1)])
             s1)
          su in
      run_index i su = (Normal tt, su1) /\
      aborted (set_aborted true test) = true /\
      (forall rest : list Z,
         for_each (i :: rest) run_index su = for_each rest run_index su1) /\
      (forall (testIdx : list Z) (m : Mode.t) (su0 : TestSuite),
         exists su2, runSome testIdx m su0 = (Normal tt, su2)).
Proof.
  intros su i test e s1 Hat Hf Hne.
  exists (snd (abort_report e)).
  split; [intros m Hw; destruct e; cbn in *; try congruence; now destruct (Hne lineNumber msg)|].
  split; [intros Hw; destruct e; cbn in *; congruence|].
  assert (Hline : fst (abort_report e) = 0).
  { destruct e; cbn; trivial. now destruct (Hne lineNumber msg). }
  assert (Hrun : run_index i su =
    (Normal tt,
     set_ctx
       (set_output
          (output s1 ++
           [formatAbortedTest 0 (snd (abort_report e));
            formatTestFooter (view (set_aborted true test)) (currentTestStats s1)])
          s1) su)).
  { rewrite (run_index_in_range _ _ _ Hat). unfold on_ctx.
    rewrite (run_test_raised _ _ _ _ Hf), Hline. reflexivity. }
  cbv zeta. split; [exact Hrun|]. split; [reflexivity|]. split.
  - intros rest. cbn [for_each]. now rewrite (bind_normal _ _ _ _ _ Hrun).
  - intros testIdx m su0. destruct (runSome_returns testIdx m su0) as (su2 & H & _). eauto.
Qed.

Lemma uncaught_exception_is_contained_witness :
  let su := Example.suite in
  let test := mkTest "test.cpp" "Test with throw outside of assertions"
                Example.throw_outside 4 false None in
  let e := StdException "std::logic_error" "ERROR!" in
  let s1 := snd (func test (entry test (ctx su))) in
  vec_at (tests su) 3 = Some test /\
  func test (entry test (ctx su)) = (Raised e, s1) /\
  (forall line msg, e <> TestAbortException line msg) /\
  exists su1, for_each [3; 0] run_index su = for_each [0] run_index su1.
Proof.
  intros su test e s1.
  assert (Hat : vec_at (tests su) 3 = Some test) by reflexivity.
  assert (Hf : func test (entry test (ctx su)) = (Raised e, s1)) by reflexivity.
  assert (Hne : forall line msg, e <> TestAbortException line msg) by (intros; discriminate).
  split; [exact Hat|]. split; [exact Hf|]. split; [exact Hne|].
  destruct (uncaught_exception_is_contained su 3 test e s1 Hat Hf Hne)
    as (reason & _ & _ & _ & _ & Hloop & _).
  eexists. apply Hloop.
Defined.

(** *** C7 *)

(** C7.  An assertion of any kind that fails under policy [Continue], in
    mode [Continue], raises nothing: it returns [Failed] and whatever follows
    it in the test function runs next, from the state the assertion left.
    In particular a test function [check(true); check(false)] with policy
    [Continue] returns normally with the stats [{1, 1}] for that test, and
    the footer gets them with a test that is not marked aborted. *)
Theorem continue_policy_failure_returns :
  forall (a : Assertion) (s s1 : Ctx),
    policy a = OnAssertionFailure.Continue ->
    failing a s s1 ->
    mode s1 = Mode.Continue ->
    (exists (ev : Event),
       evaluate a s = (Normal Failed, failure_recorded ev s1) /\
       forall (B : Type) (after : AssertionResult -> M Ctx B),
         (r <- evaluate a ;; after r) s = after Failed (failure_recorded ev s1)) /\
    (forall (test : Test) (s0 : Ctx) (e1 e2 : string) (l1 l2 : Z),
       func test =
         (check (ret true) OnAssertionFailure.Continue e1 l1 ;;
          check (ret false) OnAssertionFailure.Continue e2 l2 ;;
          ret tt) ->
       aborted test = false ->
       mode s0 = Mode.Continue ->
       counter s0 + 1 = Z.of_nat (length (stats_ s0)) ->
       exists (s' : Ctx) (test1 : Test),
         run_test test s0 = (Normal tt, s') /\
         currentTestStats s' = mkTestStats 1 1 /\
         last (output s') = Some (formatTestFooter (view test1) (mkTestStats 1 1)) /\
         aborted test1 = false).
Proof.
  intros a s s1 Hp Hf Hm. split.
  - destruct (failing_evaluate a s s1 Hf) as (ev & s2 & r1 & r2 & -> & He).
    rewrite Hm, Hp in He. exists ev. split; [exact He|].
    intros B after. now rewrite (bind_normal _ _ _ _ _ He).
  - intros test s0 e1 e2 l1 l2 Hbody Hab Hm0 Hc.
    destruct (entry_fresh test s0 Hc) as (Hin & Hcur & Hme).
    set (sA := entry test s0) in *.
    destruct (passing_evaluate (Check (ret true) OnAssertionFailure.Continue e1 l1) sA sA
                eq_refl) as (ev1 & E1).
    set (sB := pass_recorded ev1 sA) in *.
    assert (HmB : mode sB = Mode.Continue) by (unfold sB; now rewrite pass_recorded_mode, Hme).
    destruct (failing_evaluate (Check (ret false) OnAssertionFailure.Continue e2 l2) sB sB
                eq_refl) as (ev2 & sC & r1 & r2 & HsC & E2).
    rewrite HmB in E2. cbn [policy evaluate] in E1, E2.
    assert (Hrun : func test sA = (Normal tt, sC)).
    { rewrite Hbody. rewrite (bind_normal _ _ _ _ _ E1), (bind_normal _ _ _ _ _ E2).
      reflexivity. }
    eexists. exists (set_duration (clock sC (clock_reads sC) - clock s0 (clock_reads s0)) test).
    split; [apply run_test_normal; exact Hrun|].
    assert (HcurC : currentTestStats sC = mkTestStats 1 1).
    { rewrite HsC, failure_recorded_current by (now apply pass_recorded_in_test).
      unfold sB. rewrite pass_recorded_current, Hcur by assumption. reflexivity. }
    split; [exact HcurC|]. split; [|exact Hab].
    cbn [output set_output]. rewrite last_snoc. now rewrite HcurC.
Qed.

Lemma continue_policy_failure_returns_witness :
  let a := Check (ret false) OnAssertionFailure.Continue "1 > 2" 142 in
  let s := mkCtx [] Mode.Continue 0 [mkTestStats 0 0] (mkTestStats 0 0) (fun _ => 0) 0%nat in
  policy a = OnAssertionFailure.Continue /\ failing a s s /\ mode s = Mode.Continue /\
  exists ev, evaluate a s = (Normal Failed, failure_recorded ev s).
Proof.
  intros a s.
  assert (Hp : policy a = OnAssertionFailure.Continue) by reflexivity.
  assert (Hf : failing a s s) by reflexivity.
  assert (Hm : mode s = Mode.Continue) by reflexivity.
  split; [exact Hp|]. split; [exact Hf|]. split; [exact Hm|].
  destruct (continue_policy_failure_returns a s s Hp Hf Hm) as [(ev & He & _) _].
  exists ev. exact He.
Defined.

(** *** C8 *)

(** The texts [equal] hands to the formatter. *)
Lemma descriptionIfAvailable_int : descriptionIfAvailable 5 = "5" /\ descriptionIfAvailable 6 = "6".
Proof. split; reflexivity. Qed.

Lemma descriptionIfAvailable_fallback (v : NonPrintableType) : descriptionIfAvailable v = "N/A".
Proof. reflexivity. Qed.

(** [equal] on a value equal to the expected one: in every mode and under
    every policy it returns [Passed], both pass counters go up by one and
    [formatPassedEquals] gets the text of the value. *)
Lemma equal_match {T} `{ValueType T} (val res : T) (f : M Ctx T)
    (onFail : OnAssertionFailure.t) (exprstr : string) (line : Z) (s s1 : Ctx) :
  f s = (Normal res, s1) ->
  value_eq res val = true ->
  in_test s1 ->
  let s2 := pass_recorded (formatPassedEquals line exprstr (descriptionIfAvailable val)) s1 in
  equal val f onFail exprstr line s = (Normal Passed, s2) /\
  totalStats_ s2 = incr_passes (totalStats_ s1) /\
  currentTestStats s2 = incr_passes (currentTestStats s1).
Proof.
  intros Hf Heq Hin. cbv zeta. split; [|split].
  - unfold equal, try_catch. unfold bind at 1. now rewrite Hf, Heq.
  - reflexivity.
  - now apply pass_recorded_current.
Qed.

(** [equal] on another value, when mode and policy are both [Continue]: it
    returns [Failed], both fail counters go up by one and
    [formatFailedEquals] gets the texts of the expected and of the actual
    value. *)
Lemma equal_mismatch_continue {T} `{ValueType T} (val res : T) (f : M Ctx T)
    (exprstr : string) (line : Z) (s s1 : Ctx) :
  f s = (Normal res, s1) ->
  value_eq res val = false ->
  mode s1 = Mode.Continue ->
  in_test s1 ->
  let s2 := failure_recorded (formatFailedEquals line exprstr (descriptionIfAvailable val)
                                (descriptionIfAvailable res)) s1 in
  equal val f OnAssertionFailure.Continue exprstr line s = (Normal Failed, s2) /\
  totalStats_ s2 = incr_fails (totalStats_ s1) /\
  currentTestStats s2 = incr_fails (currentTestStats s1).
Proof.
  intros Hf Hne Hm Hin. cbv zeta. split; [|split].
  - unfold equal, try_catch. unfold bind at 1. rewrite Hf, Hne. cbn. now rewrite Hm.
  - reflexivity.
  - now apply failure_recorded_current.
Qed.

(** C8 at [equal(5, producer returning 6)] with policy [Abort], in mode
    [Continue], in a test that has counted nothing yet.  The
    [TestAbortException] thrown inside the try block of [equal] is caught by
    its own [catch (std::exception &)] clause: the one mismatch is counted
    twice, [formatUnexpectedException] follows [formatFailedEquals], and the
    reason of the abort is that of [reportException].  [check] on a false
    condition, whose try block holds the call of the callable only, counts
    once; so does [equal] under policy [Continue]. *)
Theorem equal_abort_mismatch_is_counted_twice :
  let s := mkCtx [] Mode.Continue 0 [mkTestStats 0 0] (mkTestStats 0 0) (fun _ => 0) 0%nat in
  equal 5 (ret 6) OnAssertionFailure.Abort "f()" 10 s =
    (Raised (TestAbortException 10 "Caught in assertion"),
     mkCtx [formatFailedEquals 10 "f()" "5" "6";
            formatUnexpectedException 10 "f()" "Equal failed."]
       Mode.Continue 0 [mkTestStats 0 2] (mkTestStats 0 2) (fun _ => 0) 0%nat) /\
  equal 5 (ret 6) OnAssertionFailure.Continue "f()" 10 s =
    (Normal Failed,
     mkCtx [formatFailedEquals 10 "f()" "5" "6"]
       Mode.Continue 0 [mkTestStats 0 1] (mkTestStats 0 1) (fun _ => 0) 0%nat) /\
  check (ret false) OnAssertionFailure.Abort "f()" 10 s =
    (Raised (TestAbortException 10 "Check failed."),
     mkCtx [formatFailedCheck 10 "f()"]
       Mode.Continue 0 [mkTestStats 0 1] (mkTestStats 0 1) (fun _ => 0) 0%nat).
Proof. cbv zeta. split; [reflexivity|]. split; reflexivity. Qed.

(** *** C9 *)

(** C9 on the example program.  [runSome] never writes [tests]; after a
    run, the test that was cut short by [LT_REQUIRE] is still not marked
    aborted in the suite and the test that returned normally still has no
    duration, while the footers got copies that are marked aborted, and
    that have a duration. *)
Theorem aborted_and_duration_stay_in_the_copy :
  let su1 := snd (run Mode.Continue Example.suite) in
  (forall (testIdx : list Z) (m : Mode.t) (su : TestSuite),
     tests (snd (runSome testIdx m su)) = tests su) /\
  (aborted <$> vec_at (tests su1) 2) = Some false /\
  (duration <$> vec_at (tests su1) 0) = Some None /\
  In (formatTestFooter
        (mkTest "test.cpp" "Test that is aborted early" tt 3 true None)
        (mkTestStats 0 1))
     (output (ctx su1)) /\
  In (formatTestFooter
        (mkTest "test.cpp" "Tests that pass" tt 1 false (Some 10))
        (mkTestStats 4 0))
     (output (ctx su1)).
Proof.
  cbv zeta. split.
  - intros testIdx m su. destruct (runSome_returns testIdx m su) as (su1 & -> & Ht).
    exact Ht.
  - split; [reflexivity|]. split; [reflexivity|]. split; vm_compute; tauto.
Qed.

(** *** C10 *)



(** * Further properties *)

(** ** The assertion functions, outcome by outcome *)

(** X1.  An assertion of any kind returns [Passed] exactly when its callable
    ends with what the assertion is looking for, and returns [Failed]
    exactly when the callable ends with a disqualifying result while mode
    and policy are both [Continue]. *)
Theorem assertion_result_iff :
  forall (a : Assertion) (s : Ctx),
    ((exists s2, evaluate a s = (Normal Passed, s2)) <-> passing a s (after_callable a s)) /\
    ((exists s2, evaluate a s = (Normal Failed, s2)) <->
     failing a s (after_callable a s) /\
     mode (after_callable a s) = Mode.Continue /\
     policy a = OnAssertionFailure.Continue).
Proof.
  intros a s. split; split.
  - intros (s2 & Hev). destruct (assertion_cases a s) as [Hp|Hn]; [exact Hp|].
    destruct (not_passing_evaluate a s Hn)
      as (s3 & _ & [(H & _)|[(r & H & _)|(msg & H & _)]]); rewrite H in Hev; discriminate.
  - intros Hp. destruct (passing_evaluate a s _ Hp) as (ev & Hev). eauto.
  - intros (s2 & Hev). destruct (assertion_cases a s) as [Hp|Hn].
    + destruct (passing_evaluate a s _ Hp) as (ev & H). rewrite H in Hev. discriminate.
    + destruct (not_passing_evaluate a s Hn)
        as (s3 & Hm & [(H & Hf & Hm3 & Hpol & _)|[(r & H & _)|(msg & H & _)]]);
        rewrite H in Hev; try discriminate.
      rewrite <- Hm. auto.
  - intros (Hf & Hm & Hpol).
    destruct (failing_evaluate a s _ Hf) as (ev & s2 & r1 & r2 & _ & Hev).
    rewrite Hm, Hpol in Hev. eauto.
Qed.



(** X3.  An evaluation of [check], [throwsType], [throws] or
    [generateFailure], and an evaluation of [equal] that returns, counts
    exactly one outcome more than its callable left: one pass or one
    failure, in the total and in the stats of the current test. *)
Theorem assertion_counts_one_outcome :
  forall (a : Assertion) (s : Ctx),
    is_Equal a = false \/ (exists r s2, evaluate a s = (Normal r, s2)) ->
    outcomes (totalStats_ (snd (evaluate a s)))
      = outcomes (totalStats_ (after_callable a s)) + 1 /\
    (in_test (after_callable a s) ->
     outcomes (currentTestStats (snd (evaluate a s)))
       = outcomes (currentTestStats (after_callable a s)) + 1).
Proof.
  intros a s Hcase.
  assert (Hone : exists ev,
            snd (evaluate a s) = pass_recorded ev (after_callable a s) \/
            snd (evaluate a s) = failure_recorded ev (after_callable a s)).
  { destruct (assertion_cases a s) as [Hp|[Hf|(e & He)]].
    - destruct (passing_evaluate a s _ Hp) as (ev & ->). eauto.
    - destruct (failing_evaluate a s _ Hf) as (ev & s2 & r1 & r2 & -> & Hev).
      exists ev. right. destruct Hcase as [Hne|(r & s3 & Hret)].
      + destruct (mode (after_callable a s)), (policy a); destruct a;
          try discriminate Hne; rewrite Hev; reflexivity.
      + rewrite Hret in Hev. rewrite Hret. cbn [snd].
        destruct (mode (after_callable a s)), (policy a); destruct a;
          try discriminate Hev; now injection Hev as _ ->.
    - destruct (erroring_evaluate a s e _ He) as (msg & _ & _ & ->). eauto. }
  destruct Hone as (ev & [-> | ->]); unfold outcomes.
  - rewrite pass_recorded_total. split; [cbn; lia|].
    intros Hin. rewrite pass_recorded_current by exact Hin. cbn. lia.
  - rewrite failure_recorded_total. split; [cbn; lia|].
    intros Hin. rewrite failure_recorded_current by exact Hin. cbn. lia.
Qed.

Lemma assertion_counts_one_outcome_witness :
  let a := ThrowsType (fun _ => false) (raise (NonStdThrow "int"))
             OnAssertionFailure.Continue "throw 4" 12 in
  let s := mkCtx [] Mode.Continue 0 [mkTestStats 3 1] (mkTestStats 5 2) (fun _ => 0) 0%nat in
  (is_Equal a = false \/ (exists r s2, evaluate a s = (Normal r, s2))) /\
  outcomes (totalStats_ (snd (evaluate a s))) = 8.
Proof.
  intros a s.
  assert (H : is_Equal a = false \/ (exists r s2, evaluate a s = (Normal r, s2)))
    by (left; reflexivity).
  split; [exact H|].
  exact (proj1 (assertion_counts_one_outcome a s H)).
Defined.

(** ** Runs of nothing *)

(** X5.  A run in which no requested index is in range (no index at all, a
    suite without tests, only indices out of range) still returns
    normally: the formatter gets the start and the end of the suite, both
    with zero stats, and nothing else; the mode is set; no stats slot is
    added and the tests are as before. *)
Theorem runSome_with_nothing_in_range :
  forall (testIdx : list Z) (m : Mode.t) (su : TestSuite),
    in_range_of su testIdx = [] ->
    exists su1,
      runSome testIdx m su = (Normal tt, su1) /\
      output (ctx su1) =
        [formatTestSuiteStart (suiteName su) (mkTestStats 0 0);
         formatTestSuiteEnd (suiteName su) (mkTestStats 0 0)] /\
      totalStats_ (ctx su1) = mkTestStats 0 0 /\
      mode (ctx su1) = m /\
      stats_ (ctx su1) = stats_ (ctx su) /\
      counter (ctx su1) = counter (ctx su) /\
      tests su1 = tests su.
Proof.
  intros testIdx m su Hnone.
  assert (Hloop : for_each testIdx run_index (run_started m su)
                  = (Normal tt, run_started m su)).
  { rewrite for_each_run_index_in_range.
    change (in_range_of (run_started m su) testIdx) with (in_range_of su testIdx).
    now rewrite Hnone. }
  rewrite runSome_eq, Hloop.
  eexists. split; [reflexivity|]. repeat split.
Qed.

Lemma runSome_with_nothing_in_range_witness :
  in_range_of Example.suite [4; -1] = [] /\
  exists su1,
    runSome [4; -1] Mode.Throw Example.suite = (Normal tt, su1) /\
    output (ctx su1) =
      [formatTestSuiteStart "LiTest demonstration" (mkTestStats 0 0);
       formatTestSuiteEnd "LiTest demonstration" (mkTestStats 0 0)].
Proof.
  assert (H : in_range_of Example.suite [4; -1] = []) by reflexivity.
  split; [exact H|].
  destruct (runSome_with_nothing_in_range [4; -1] Mode.Throw Example.suite H)
    as (su1 & Hr & Ho & _).
  exists su1. split; [exact Hr|exact Ho].
Defined.

(** ** The stats slots *)

(** X6.  The stats slots of earlier runs are kept for ever: a run neither
    removes nor changes a slot that was there before it, and appends one
    slot for each requested index in range; the appended slots are the stats
    recorded since the start of the run. *)
Theorem stats_history_is_kept :
  forall (su : TestSuite) (testIdx : list Z) (m : Mode.t),
    Reachable su ->
    exists new,
      stats_ (ctx (snd (runSome testIdx m su))) = stats_ (ctx su) ++ new /\
      length new = length (in_range_of su testIdx) /\
      new = recorded_since (counter (ctx su)) (ctx (snd (runSome testIdx m su))).
Proof.
  intros su testIdx m Hreach.
  destruct (Reachable_wf su Hreach) as (Hcode & _ & H0 & Hlen).
  destruct (for_each_run_index_history testIdx (run_started m su) Hcode Hlen)
    as (new & Hn & Hl & _).
  assert (Hn' : stats_ (ctx (snd (runSome testIdx m su))) = stats_ (ctx su) ++ new).
  { rewrite runSome_eq.
    destruct (for_each_run_index_returns testIdx (run_started m su)) as (c & Hr).
    rewrite Hr in Hn |- *. exact Hn. }
  exists new. split; [exact Hn'|]. split; [exact Hl|].
  unfold recorded_since. rewrite Hn'. rewrite drop_app_length'; [reflexivity|]. lia.
Qed.

Lemma stats_history_is_kept_witness :
  let su := snd (run Mode.Continue Example.suite) in
  Reachable su /\
  exists new, stats_ (ctx (snd (runSome [0; 0] Mode.Continue su))) = stats_ (ctx su) ++ new /\
              length new = 2%nat.
Proof.
  intros su.
  assert (H : Reachable su) by (apply reach_run, Example_suite_Reachable).
  split; [exact H|].
  destruct (stats_history_is_kept su [0; 0] Mode.Continue H) as (new & Hn & Hl & _).
  exists new. split; [exact Hn|]. rewrite Hl. reflexivity.
Defined.

(** ** The calls a run sends to its formatter *)

(** X7.  The formatter of a run gets [formatTestSuiteStart] first, with
    zero stats, and [formatTestSuiteEnd] last, with the total stats the
    suite has when [runSome] returns; it gets no call of an earlier run. *)
Theorem formatter_gets_start_first_and_end_last :
  forall (su : TestSuite) (testIdx : list Z) (m : Mode.t),
    Reachable su ->
    exists evs,
      output (ctx (snd (runSome testIdx m su)))
        = formatTestSuiteStart (suiteName su) (mkTestStats 0 0) :: evs
            ++ [formatTestSuiteEnd (suiteName su)
                  (totalTestStats (ctx (snd (runSome testIdx m su))))].
Proof.
  intros su testIdx m Hreach.
  destruct (Reachable_wf su Hreach) as (Hcode & _).
  destruct (for_each_run_index_output testIdx (run_started m su) Hcode) as (evs & Ho).
  rewrite runSome_eq.
  destruct (for_each_run_index_returns testIdx (run_started m su)) as (c & Hr).
  rewrite Hr in Ho |- *. cbn in Ho |- *. rewrite Ho. exists evs. reflexivity.
Qed.

Lemma formatter_gets_start_first_and_end_last_witness :
  Reachable Example.suite /\
  exists evs,
    output (ctx (snd (runSome [2] Mode.Continue Example.suite)))
      = formatTestSuiteStart "LiTest demonstration" (mkTestStats 0 0) :: evs
          ++ [formatTestSuiteEnd "LiTest demonstration" (mkTestStats 0 1)].
Proof.
  split; [exact Example_suite_Reachable|].
  exact (formatter_gets_start_first_and_end_last Example.suite [2] Mode.Continue
           Example_suite_Reachable).
Defined.

(** ** The report of a run of tests written with the assertion functions *)

(** X8.  In a run of tests written with the assertion functions and the
    message macros, every pass and every failure counted in the total has
    its own call to the formatter: when [runSome] returns, the total passes
    are as many as the passed-check, passed-throw and passed-equals calls
    received, and the total fails as many as the failed-check,
    failed-equals, failed-throw, manual-failure and unexpected-exception
    calls. *)
Theorem every_counted_outcome_is_reported :
  forall (su : TestSuite) (testIdx : list Z) (m : Mode.t),
    Reachable su ->
    tests_are_macro_code su ->
    let s1 := ctx (snd (runSome testIdx m su)) in
    passes (totalTestStats s1) = count_events is_pass_event (output s1) /\
    fails (totalTestStats s1) = count_events is_fail_event (output s1).
Proof.
  intros su testIdx m Hreach Hmc.
  destruct (runSome_report testIdx m su Hreach Hmc) as ((_ & Hp & Hf & _) & _).
  cbv zeta. unfold totalTestStats. now rewrite Hp, Hf.
Qed.

(** X9.  In such a run the footers sent to the formatter carry, in order,
    the stats recorded since the start of the run, one footer for each
    requested index in range, and the stats sent last with
    [formatTestSuiteEnd] are the elementwise sum of the stats of the
    footers. *)
Theorem summary_is_sum_of_footers :
  forall (su : TestSuite) (testIdx : list Z) (m : Mode.t),
    Reachable su ->
    tests_are_macro_code su ->
    let s1 := ctx (snd (runSome testIdx m su)) in
    footer_stats (output s1) = recorded_since (counter (ctx su)) s1 /\
    length (footer_stats (output s1)) = length (in_range_of su testIdx) /\
    last (output s1)
      = Some (formatTestSuiteEnd (suiteName su) (stats_sum (footer_stats (output s1)))).
Proof.
  intros su testIdx m Hreach Hmc.
  destruct (runSome_report testIdx m su Hreach Hmc) as (((_ & _ & Htot) & _ & _ & Hfoot) & _ & Hl).
  cbv zeta in *. split; [exact Hfoot|].
  split; [rewrite Hfoot; exact (runSome_recorded_length testIdx m su Hreach)|].
  rewrite Hl, Hfoot. unfold totalTestStats. now rewrite Htot.
Qed.

(** X10.  In such a run the headers sent to the formatter are those of the
    tests at the requested indices in range, in the order of the request,
    an index requested twice giving two headers. *)
Theorem headers_follow_the_request :
  forall (su : TestSuite) (testIdx : list Z) (m : Mode.t),
    Reachable su ->
    tests_are_macro_code su ->
    header_tests (output (ctx (snd (runSome testIdx m su)))) = requested_tests su testIdx.
Proof.
  intros su testIdx m Hreach Hmc.
  exact (proj1 (proj2 (runSome_report testIdx m su Hreach Hmc))).
Qed.

Lemma every_counted_outcome_is_reported_witness :
  Reachable Example.suite /\ tests_are_macro_code Example.suite /\
  let s1 := ctx (snd (runSome [0; 1] Mode.Continue Example.suite)) in
  passes (totalTestStats s1) = count_events is_pass_event (output s1) /\
  fails (totalTestStats s1) = count_events is_fail_event (output s1).
Proof.
  split; [exact Example_suite_Reachable|]. split; [exact Example_suite_macro_code|].
  exact (every_counted_outcome_is_reported Example.suite [0; 1] Mode.Continue
           Example_suite_Reachable Example_suite_macro_code).
Defined.

Lemma summary_is_sum_of_footers_witness :
  Reachable Example.suite /\ tests_are_macro_code Example.suite /\
  let s1 := ctx (snd (runSome [1; 7; 0] Mode.Continue Example.suite)) in
  footer_stats (output s1) = [mkTestStats 0 4; mkTestStats 4 0] /\
  last (output s1)
    = Some (formatTestSuiteEnd "LiTest demonstration" (stats_sum (footer_stats (output s1)))).
Proof.
  split; [exact Example_suite_Reachable|]. split; [exact Example_suite_macro_code|].
  cbv zeta. split; [reflexivity|].
  exact (proj2 (proj2 (summary_is_sum_of_footers Example.suite [1; 7; 0] Mode.Continue
                         Example_suite_Reachable Example_suite_macro_code))).
Defined.

Lemma headers_follow_the_request_witness :
  Reachable Example.suite /\ tests_are_macro_code Example.suite /\
  index <$> header_tests (output (ctx (snd (runSome [3; 9; 0; 3] Mode.Continue
                                              Example.suite))))
    = [4; 1; 4].
Proof.
  split; [exact Example_suite_Reachable|]. split; [exact Example_suite_macro_code|].
  rewrite (headers_follow_the_request Example.suite [3; 9; 0; 3] Mode.Continue
             Example_suite_Reachable Example_suite_macro_code).
  reflexivity.
Defined.

(** ** The Markdown formatter and the log level *)

Lemma Markdown_call_shown (level : LogLevel.t) (ev : Event) :
  Markdown.call level ev
    = if shown_at level ev then Markdown.call LogLevel.Everything ev else EmptyString.
Proof. destruct level, ev; reflexivity. Qed.

(** X11.  The log level of the Markdown formatter only removes lines: what
    it writes for a sequence of calls at any level is what it writes at
    level [Everything] for the calls among them that are shown at that
    level, which are all calls but the passed assertions (below
    [Everything]) and the messages and printed expressions (at [Errors]).
    Headers, footers, the summary, failures and aborts are written the same
    at every level. *)
Theorem markdown_level_only_removes_lines :
  forall (level : LogLevel.t) (evs : list Event),
    written (Markdown.call level) evs
      = written (Markdown.call LogLevel.Everything) (List.filter (shown_at level) evs) /\
    (forall ev,
       is_pass_event ev = false ->
       (is_message_event ev = false \/ level <> LogLevel.Errors) ->
       In ev evs -> In ev (List.filter (shown_at level) evs)).
Proof.
  intros level evs. split.
  - induction evs as [|ev evs IH]; [reflexivity|].
    cbn [written foldr List.filter].
    change (foldr (fun ev rest => Markdown.call level ev +:+ rest) EmptyString evs)
      with (written (Markdown.call level) evs).
    rewrite IH, (Markdown_call_shown level ev).
    destruct (shown_at level ev); reflexivity.
  - intros ev Hp Hm Hin. apply List.filter_In. split; [exact Hin|].
    unfold shown_at. rewrite Hp.
    destruct (is_message_event ev); [|reflexivity].
    destruct Hm as [Hm|Hm]; [discriminate|]. destruct level; trivial. now destruct Hm.
Qed.

(** ** The badge of the HTML formatter *)

(** No run marks a test of the suite itself: see [run_index]. *)
Lemma Reachable_tests_unmarked (su : TestSuite) :
  Reachable su -> Forall (fun t : Test => aborted t = false) (tests su).
Proof.
  induction 1 as [suite_name clk|test_name f test_file su Hsu IH Hf|testIdx m su Hsu IH
                 |m su Hsu IH].
  - apply Forall_nil. exact I.
  - unfold addTest. cbn. apply Forall_app. split; [exact IH|].
    apply Forall_cons. split; [reflexivity|]. apply Forall_nil. exact I.
  - destruct (runSome_returns testIdx m su) as (su1 & -> & Ht). cbn. now rewrite Ht.
  - unfold run.
    destruct (runSome_returns (map Z.of_nat (seq 0 (length (tests su)))) m su)
      as (su1 & -> & Ht).
    cbn. now rewrite Ht.
Qed.

(** X12.  The badge the HTML formatter puts on a test run from a suite of
    the program: the last call of the loop turn is the footer, and the
    class chosen for it is "aborted" whenever the test function raised,
    even if no assertion failed; when the function returned it is "passed"
    if the test counted no failure and "failed" otherwise. *)
Theorem html_badge_follows_the_run :
  forall (su : TestSuite) (i : Z) (test : Test),
    Reachable su ->
    vec_at (tests su) i = Some test ->
    exists (test1 : TestView) (st : TestStats),
      last (output (ctx (snd (run_index i su)))) = Some (formatTestFooter test1 st) /\
      st = currentTestStats (snd (func test (entry test (ctx su)))) /\
      fst (HTML.badge test1 st) =
        match fst (func test (entry test (ctx su))) with
        | Raised _ => "aborted"
        | Normal _ => if fails st =? 0 then "passed" else "failed"
        end.
Proof.
  intros su i test Hreach Hat.
  assert (Hab : aborted test = false)
    by exact (vec_at_Forall _ _ _ _ (Reachable_tests_unmarked su Hreach) Hat).
  rewrite (run_index_in_range _ _ _ Hat). unfold on_ctx. rewrite run_test_eq.
  destruct (func test (entry test (ctx su))) as [[[]|e] s1]; cbn [snd fst ctx set_ctx].
  - eexists _, _. cbn [output set_output]. rewrite last_snoc.
    split; [reflexivity|]. split; [reflexivity|].
    unfold HTML.badge. cbn [aborted view set_duration]. rewrite Hab.
    now destruct (fails _ =? 0).
  - eexists _, _. cbn [output set_output].
    rewrite last_app_cons, last_cons_cons, last_singleton.
    split; [reflexivity|]. split; [reflexivity|]. reflexivity.
Qed.

Lemma html_badge_follows_the_run_witness :
  let test := mkTest "test.cpp" "Test with throw outside of assertions"
                Example.throw_outside 4 false None in
  Reachable Example.suite /\ vec_at (tests Example.suite) 3 = Some test /\
  exists test1 st,
    last (output (ctx (snd (run_index 3 Example.suite)))) = Some (formatTestFooter test1 st) /\
    fails st = 0 /\ fst (HTML.badge test1 st) = "aborted".
Proof.
  intros test.
  assert (Hat : vec_at (tests Example.suite) 3 = Some test) by reflexivity.
  split; [exact Example_suite_Reachable|]. split; [exact Hat|].
  destruct (html_badge_follows_the_run Example.suite 3 test Example_suite_Reachable Hat)
    as (test1 & st & Hl & Hst & Hb).
  exists test1, st. split; [exact Hl|]. split; [now rewrite Hst|exact Hb].
Defined.

(** ** A run of all tests *)


